(** * Reconciliation engine of the seller dashboard (app1.py)

    A shallow embedding of the column resolver, the cost map builder, the
    payment aggregator, the status resolver and the cost and profit
    calculator of [app1.py], with the properties of its specification.

    Conventions of the embedding.
    - Text is [string]; a character stands for a code point below 256.
    - Numbers are exact rationals ([Qc]); the rounding of binary floating
      point is not modelled, and NaN is the empty cell [CNull].
    - A cell of a parsed spreadsheet is empty, a number or a text.
    - pandas' readers and its conversions between text and numbers are
      parameters of the development ([Section Engine]).
    - The labels of the order table and of the cost sheet are taken to be
      distinct after normalisation. A payment sheet in which two columns
      would carry one of the kept labels after the renaming of lines
      139-145 is set apart ([Duplicated]): pandas then selects both
      columns under the one label, and the run does not reach a summary
      built from such a frame. *)

From Stdlib Require Import QArith Qcanon.
From stdpp Require Import gmap strings list fin_maps.

(** ** Python text primitives *)

Module Py.

Definition code (c : Ascii.ascii) : N := Ascii.N_of_ascii c.

(** [str.lower] on one character: A-Z, and the upper-case letters of the
    Latin-1 block (0xC0-0xDE without the multiplication sign 0xD7). *)
Definition lower_char (c : Ascii.ascii) : Ascii.ascii :=
  let n := code c in
  if ((65 <=? n) && (n <=? 90))%N
     || ((192 <=? n) && (n <=? 222) && negb (n =? 215))%N
  then Ascii.ascii_of_N (n + 32)
  else c.

Fixpoint lower (s : string) : string :=
  match s with
  | EmptyString => EmptyString
  | String c s' => String (lower_char c) (lower s')
  end.

(** [s.replace(c, empty)] for a one-character pattern [c]: every
    occurrence of [c] is removed. *)
Fixpoint remove_char (c : Ascii.ascii) (s : string) : string :=
  match s with
  | EmptyString => EmptyString
  | String a s' =>
      if Ascii.eqb a c then remove_char c s' else String a (remove_char c s')
  end.

(** White space as [str.strip] sees it, below code point 256. *)
Definition is_space (c : Ascii.ascii) : bool :=
  let n := code c in
  (((9 <=? n) && (n <=? 13)) || ((28 <=? n) && (n <=? 32))
   || (n =? 133) || (n =? 160))%N.

Fixpoint lstrip (s : string) : string :=
  match s with
  | EmptyString => EmptyString
  | String c s' => if is_space c then lstrip s' else s
  end.

Fixpoint rstrip (s : string) : string :=
  match s with
  | EmptyString => EmptyString
  | String c s' =>
      match rstrip s' with
      | EmptyString => if is_space c then EmptyString else String c EmptyString
      | r => String c r
      end
  end.

Definition strip (s : string) : string := rstrip (lstrip s).

(** [s.startswith(k)] *)
Fixpoint starts_with (k s : string) : bool :=
  match k with
  | EmptyString => true
  | String a k' =>
      match s with
      | EmptyString => false
      | String b s' => Ascii.eqb a b && starts_with k' s'
      end
  end.

(** [k in s] on text: [k] occurs in [s] as a contiguous substring. *)
Fixpoint contains (k s : string) : bool :=
  starts_with k s
  || match s with
     | EmptyString => false
     | String _ s' => contains k s'
     end.

(** [any(k in s for k in keywords)] *)
Definition any_in (keywords : list string) (s : string) : bool :=
  existsb (fun k => contains k s) keywords.

(** Truth value of an optional text: [None] and the empty text are false. *)
Definition truthy (o : option string) : bool :=
  match o with
  | Some s => negb (String.eqb s EmptyString)
  | None => false
  end.

(** *** [repr] of a text and [str] of a list of texts *)

Definition hex_digit (n : N) : Ascii.ascii :=
  Ascii.ascii_of_N (if (n <? 10)%N then 48 + n else 87 + n).

(** Code points that [repr] prints as they are. *)
Definition printable (c : Ascii.ascii) : bool :=
  let n := code c in
  (((32 <=? n) && (n <=? 126)) || ((161 <=? n) && negb (n =? 173)))%N.

Definition backslash : Ascii.ascii := Ascii.ascii_of_N 92.
Definition squote : Ascii.ascii := Ascii.ascii_of_N 39.
Definition dquote : Ascii.ascii := Ascii.ascii_of_N 34.

(** One character inside a literal delimited by [q]. *)
Definition repr_char (q c : Ascii.ascii) : string :=
  if Ascii.eqb c backslash || Ascii.eqb c q then String backslash (String c EmptyString)
  else if (code c =? 9)%N then String backslash "t"
  else if (code c =? 10)%N then String backslash "n"
  else if (code c =? 13)%N then String backslash "r"
  else if printable c then String c EmptyString
  else (* \xNN, two lower-case hexadecimal digits *)
    String backslash
         (String (Ascii.ascii_of_N 120) (String (hex_digit (code c / 16))
                        (String (hex_digit (code c mod 16)) EmptyString))).

Fixpoint repr_body (q : Ascii.ascii) (s : string) : string :=
  match s with
  | EmptyString => EmptyString
  | String c s' => repr_char q c +:+ repr_body q s'
  end.

Definition has_char (c : Ascii.ascii) (s : string) : bool :=
  contains (String c EmptyString) s.

(** Double quotes are chosen when the text has a single quote and no
    double quote; otherwise single quotes. *)
Definition quote_of (s : string) : Ascii.ascii :=
  if has_char squote s && negb (has_char dquote s) then dquote else squote.

Definition repr (s : string) : string :=
  let q := quote_of s in
  String q (repr_body q s +:+ String q EmptyString).

Fixpoint join_reprs (l : list string) : string :=
  match l with
  | [] => EmptyString
  | [x] => repr x
  | x :: l' => repr x +:+ ", " +:+ join_reprs l'
  end.

(** [str(list(l))] *)
Definition str_list (l : list string) : string :=
  "[" +:+ join_reprs l +:+ "]".

End Py.

(** ** Tables *)

(** A cell of a parsed sheet: empty (NaN or None), a number or a text. *)
Inductive Cell :=
| CNull
| CNum (q : Qc)
| CStr (s : string).

Global Instance Cell_eq_dec : EqDecision Cell.
Proof. solve_decision. Defined.

(** [pd.notna] *)
Definition notna (c : Cell) : bool :=
  match c with
  | CNull => false
  | _ => true
  end.

(** A DataFrame: its column labels ([df.columns], already [astype(str)])
    and its data rows. A row gives the cells in the order of the labels; a
    cell past the end of a row is empty. *)
Record DataFrame := {
  columns : list string;
  rows : list (list Cell)
}.

(** [len(df)] *)
Definition len (df : DataFrame) : nat := length (rows df).

Definition cell_at (i : nat) (r : list Cell) : Cell := default CNull (r !! i).

Definition space : Ascii.ascii := Ascii.ascii_of_N 32.
Definition underscore : Ascii.ascii := Ascii.ascii_of_N 95.
Definition period : Ascii.ascii := Ascii.ascii_of_N 46.

(** ** Column resolver (app1.py, lines 40-50) *)

(** One label under [normalize_columns]:
    [.str.lower().str.replace(" ", empty).str.replace("_", empty)
     .str.replace(".", empty)]. *)
Definition normalize_name (s : string) : string :=
  Py.remove_char period
    (Py.remove_char underscore (Py.remove_char space (Py.lower s))).

Definition normalize_columns (df : DataFrame) : DataFrame :=
  {| columns := map normalize_name (columns df); rows := rows df |}.

(** The loop of [find_column] over [df.columns]. *)
Fixpoint find_label (cols : list string) (keywords : list string)
  : option string :=
  match cols with
  | [] => None
  | col :: rest =>
      if Py.any_in keywords col then Some col else find_label rest keywords
  end.

Definition find_column (df : DataFrame) (keywords : list string)
  : option string :=
  find_label (columns df) keywords.

(** ** Label operations of pandas used by the engine *)

(** [df.rename(columns=m)]: a label that is a key of [m] is replaced. *)
Definition rename (m : gmap string string) (df : DataFrame) : DataFrame :=
  {| columns := map (fun c => default c (m !! c)) (columns df);
     rows := rows df |}.

(** How many columns carry the label [l]. *)
Definition count_label (l : string) (df : DataFrame) : nat :=
  length (filter (fun c => c = l) (columns df)).

(** Position of the first column labelled [l]. *)
Fixpoint index_of (l : string) (cols : list string) : option nat :=
  match cols with
  | [] => None
  | c :: rest => if String.eqb c l then Some 0 else S <$> index_of l rest
  end.

(** The cell of row [r] under label [l] (empty when there is no such
    column). *)
Definition cell_of (df : DataFrame) (l : string) (r : list Cell) : Cell :=
  match index_of l (columns df) with
  | Some i => cell_at i r
  | None => CNull
  end.

(** [r] with [f] applied to its cell at position [i]; a row that ends
    before [i] is first filled with empty cells. *)
Definition map_cell (i : nat) (f : Cell -> Cell) (r : list Cell) : list Cell :=
  <[i := f (cell_at i r)]> (r ++ replicate (S i - length r) CNull).

(** [df[l] = f(df[l])] cell by cell, on the first column labelled [l]. *)
Definition map_column (l : string) (f : Cell -> Cell) (df : DataFrame)
  : DataFrame :=
  match index_of l (columns df) with
  | Some i => {| columns := columns df; rows := map (map_cell i f) (rows df) |}
  | None => df
  end.

(** ** Payment inputs *)

(** A sheet of a payment workbook, as [pd.read_excel] returns it with the
    first row as header and with the second row as header ([header=1]);
    [None] stands for the reader raising an exception. *)
Record Sheet := {
  read_header0 : option DataFrame;
  read_header1 : option DataFrame
}.

(** An uploaded payment file: [pd.ExcelFile] raises ([None]) or gives the
    sheets in the order of [xls.sheet_names]. *)
Definition Workbook : Type := option (list Sheet).

(** The calls of [pd.read_excel] made for a sheet. *)
Inductive ReadEvent := ReadHeader0 | ReadHeader1.

(** A row of a collected frame [df[cols_to_keep]]. *)
Record PayRow := {
  suborderno : string;
  amount : Cell;
  payment_status : Cell
}.

(** A collected frame; [has_status] tells whether it has the column
    [payment_status] (without it, [pd.concat] leaves the cell empty). *)
Record Frame := {
  has_status : bool;
  frame_rows : list PayRow
}.

(** What processing one sheet does to the loop of its file. *)
Inductive Outcome :=
| Skipped                (* nothing appended, the loop goes on *)
| Raised                 (* an exception reaches the handler of the file *)
| Kept (f : Frame)       (* a frame is appended *)
| Duplicated.            (* the frame would repeat one of its labels *)

(** A row of [all_payments] once [amount] is numeric. *)
Record Payment := {
  pay_id : string;
  pay_amount : Qc;
  pay_status : Cell
}.

(** ** Order table, configuration and results *)

(** The order table after section 2 of the script: the resolved columns,
    the normalised labels and the rows. *)
Record Orders := {
  order_id_col : string;
  order_sku_col : option string;
  order_status_col : option string;
  order_labels : list string;
  order_rows : list (gmap string Cell)
}.

(** The sidebar settings. *)
Record Config := {
  fallback_product_cost : Qc;
  packaging_cost : Qc
}.

(** The computed columns of a row of [final_df]. *)
Record Reconciled := {
  rec_row : gmap string Cell;
  final_status : string;
  unit_cost : Qc;
  product_cost : Qc;
  packaging : Qc;
  net_profit : Qc
}.

(** How a run of the engine ends. *)
Inductive Run (A : Type) :=
| Done (a : A)
| Stopped            (* [st.stop()]: no order id column *)
| TopLevelError      (* an exception reaches the outer handler *)
| OutsideModel.      (* a payment frame repeats a label *)
Arguments Done {A} a.
Arguments Stopped {A}.
Arguments TopLevelError {A}.
Arguments OutsideModel {A}.

(** ** The engine *)

Section Engine.

(** pandas' reading of a text as a number ([None]: not a number), and
    Python's [str] of a number. *)
Variable parse_num : string -> option Qc.
Variable str_num : Qc -> string.

(** [str(x)] and [astype(str)] on a cell; the empty cell is NaN. *)
Definition cell_str (c : Cell) : string :=
  match c with
  | CNull => "nan"
  | CNum q => str_num q
  | CStr s => s
  end.

(** [pd.to_numeric(x, errors='coerce')]; [None] is NaN. *)
Definition to_numeric (c : Cell) : option Qc :=
  match c with
  | CNull => None
  | CNum q => Some q
  | CStr s => parse_num s
  end.

(** [pd.to_numeric(x, errors='coerce').fillna(0)] *)
Definition coerce0 (c : Cell) : Qc := default 0%Qc (to_numeric c).

(** *** 1. Cost sheet (lines 61-85) *)

(** [pd.Series(values, index=keys).to_dict()]: a later row replaces an
    earlier one with the same key. Only text keys are kept: the map is
    read by [cost_map.get] with a text. *)
Definition to_dict (kvs : list (Cell * Cell)) : gmap string Qc :=
  fold_left
    (fun (m : gmap string Qc) kv =>
       match fst kv with
       | CStr k => <[k := coerce0 (snd kv)]> m
       | _ => m
       end)
    kvs ∅.

Definition cost_map_of (cost_df0 : DataFrame) : gmap string Qc :=
  let cost_df := normalize_columns cost_df0 in
  let c_sku := find_column cost_df ["sku"; "style"; "design"; "productid"] in
  let c_cost :=
    find_column cost_df ["cost"; "price"; "rate"; "amount"; "purchase"] in
  match c_sku, c_cost with
  | Some sku, Some cost =>
      if Py.truthy c_sku && Py.truthy c_cost then
        let df1 :=
          map_column sku
            (fun c => CStr (Py.lower (Py.strip (cell_str c)))) cost_df in
        let df2 := map_column cost (fun c => CNum (coerce0 c)) df1 in
        to_dict (map (fun r => (cell_of df2 sku r, cell_of df2 cost r))
                   (rows df2))
      else ∅
  | _, _ => ∅
  end.

(** [uploaded_cost_sheet]: nothing uploaded, a file that cannot be read,
    or a parsed table. *)
Definition cost_map (uploaded_cost_sheet : option (option DataFrame))
  : gmap string Qc :=
  match uploaded_cost_sheet with
  | Some (Some cost_df) => cost_map_of cost_df
  | _ => ∅
  end.

(** *** 2. Order file (lines 90-112) *)

(** A row of a table as pandas hands it to a row function: label to
    cell, [row.get(l)] being [row !! l]. The labels of the order table
    are taken to be distinct after normalisation. *)
Definition row_of (df : DataFrame) (r : list Cell) : gmap string Cell :=
  list_to_map (imap (fun i c => (c, cell_at i r)) (columns df)).

(** [None]: no order id column, the run stops (line 105). *)
Definition process_orders (orders_df0 : DataFrame) : option Orders :=
  let orders_df := normalize_columns orders_df0 in
  let id_col := find_column orders_df ["suborder"; "orderid"] in
  match id_col with
  | Some c =>
      if Py.truthy id_col then
        Some {| order_id_col := c;
                order_sku_col :=
                  find_column orders_df ["sku"; "style"; "productid"];
                order_status_col :=
                  find_column orders_df ["orderstatus"; "status"];
                order_labels := columns orders_df;
                order_rows :=
                  map (fun r =>
                         alter (fun x => CStr (cell_str x)) c
                           (row_of orders_df r))
                    (rows orders_df) |}
      else None
  | None => None
  end.

(** *** 3. Payment files (lines 117-149) *)

(** [df.columns.astype(str).str.lower().str.replace(" ", empty)] *)
Definition temp_cols (df : DataFrame) : list string :=
  map (fun c => Py.remove_char space (Py.lower c)) (columns df).

(** The header fix (lines 127-130): the condition, and the second read
    with its own handler. *)
Definition needs_header_fix (df : DataFrame) : bool :=
  negb (Py.contains "suborder" (Py.str_list (temp_cols df)))
  && (2 <? len df)%nat.

Definition header_fix (sh : Sheet) (df : DataFrame)
  : DataFrame * list ReadEvent :=
  if needs_header_fix df then
    match read_header1 sh with
    | Some df' => (df', [ReadHeader1])
    | None => (df, [ReadHeader1])
    end
  else (df, []).

(** [df[cols_to_keep]] after [dropna(subset=['suborderno'])] and
    [astype(str)] on the order id. *)
Definition pay_rows (df : DataFrame) (with_status : bool) : list PayRow :=
  map (fun r =>
         {| suborderno := cell_str (cell_of df "suborderno" r);
            amount := cell_of df "amount" r;
            payment_status :=
              if with_status then cell_of df "payment_status" r
              else CNull |})
    (filter (fun r => notna (cell_of df "suborderno" r) = true) (rows df)).

(** Lines 134-148 on a table with normalised labels. The two renamings
    act on the labels as they are at that point, so a column matched
    twice keeps the last name given by the first dictionary and is no
    longer found by the second renaming. A label that is looked up and
    absent is a KeyError ([Raised]); a kept label carried by two columns
    gives [Duplicated]. *)
Definition collect (df : DataFrame) : Outcome :=
  let p_id := find_column df ["suborder"] in
  let p_amt :=
    find_column df ["finalsettlement"; "settlementamount"; "netamount"] in
  let p_status := find_column df ["liveorderstatus"; "orderstatus"] in
  match p_id, p_amt with
  | Some i, Some a =>
      if Py.truthy p_id && Py.truthy p_amt then
        let df1 := rename (<[a := "amount"]> {[ i := "suborderno" ]}) df in
        if (count_label "suborderno" df1 =? 0)%nat then Raised
        else
          let with_status := Py.truthy p_status in
          let df2 :=
            match p_status with
            | Some s =>
                if with_status then rename {[ s := "payment_status" ]} df1
                else df1
            | None => df1
            end in
          let cols_to_keep :=
            if with_status then ["suborderno"; "amount"; "payment_status"]
            else ["suborderno"; "amount"] in
          if existsb (fun l => (count_label l df2 =? 0)%nat) cols_to_keep
          then Raised
          else if existsb (fun l => (1 <? count_label l df2)%nat) cols_to_keep
          then Duplicated
          else Kept {| has_status := with_status;
                       frame_rows := pay_rows df2 with_status |}
      else Skipped
  | _, _ => Skipped
  end.

(** The body of the loop over the sheets of a file (lines 123-148), with
    the reads it makes. *)
Definition process_sheet (sh : Sheet) : Outcome * list ReadEvent :=
  match read_header0 sh with
  | None => (Raised, [ReadHeader0])
  | Some df =>
      if (len df <? 2)%nat then (Skipped, [ReadHeader0])
      else
        let '(df', reads) := header_fix sh df in
        (collect (normalize_columns df'), ReadHeader0 :: reads)
  end.

(** The loop over the sheets of one file inside its [try]: an exception
    leaves the loop and keeps what was appended before. [None]: a frame
    with a repeated label was appended, which is outside this model. *)
Fixpoint process_sheets (sheets : list Sheet) (payment_frames : list Frame)
  : option (list Frame) :=
  match sheets with
  | [] => Some payment_frames
  | sh :: rest =>
      match fst (process_sheet sh) with
      | Skipped => process_sheets rest payment_frames
      | Raised => Some payment_frames
      | Kept f => process_sheets rest (payment_frames ++ [f])
      | Duplicated => None
      end
  end.

Definition process_file (pay_file : Workbook) (payment_frames : list Frame)
  : option (list Frame) :=
  match pay_file with
  | None => Some payment_frames
  | Some sheets => process_sheets sheets payment_frames
  end.

(** The loop over [uploaded_payments] (line 119). *)
Fixpoint process_files (uploaded_payments : list Workbook)
  (payment_frames : list Frame) : option (list Frame) :=
  match uploaded_payments with
  | [] => Some payment_frames
  | pay_file :: rest =>
      match process_file pay_file payment_frames with
      | Some frames => process_files rest frames
      | None => None
      end
  end.

Definition payment_frames (uploaded_payments : list Workbook)
  : option (list Frame) :=
  process_files uploaded_payments [].

(** *** Aggregation (lines 151-164) *)

(** The rows a frame gives to [pd.concat]: a frame without the column
    [payment_status] gets empty cells there. *)
Definition concat_rows (f : Frame) : list PayRow :=
  if has_status f then frame_rows f
  else map (fun r => {| suborderno := suborderno r;
                        amount := amount r;
                        payment_status := CNull |})
         (frame_rows f).

(** [pd.concat(payment_frames)] with [amount] made numeric (line 153). *)
Definition all_payments (frames : list Frame) : list Payment :=
  map (fun r =>
         {| pay_id := suborderno r;
            pay_amount := coerce0 (amount r);
            pay_status := payment_status r |})
    (concat (map concat_rows frames)).

(** ['payment_status' in all_payments.columns] *)
Definition has_status_column (frames : list Frame) : bool :=
  existsb has_status frames.

(** [groupby("suborderno")["amount"].sum()] *)
Definition amount_summary (payments : list Payment) : gmap string Qc :=
  fold_left
    (fun (m : gmap string Qc) p =>
       <[pay_id p := (default 0 (m !! pay_id p) + pay_amount p)%Qc]> m)
    payments ∅.

(** [dropna(subset=['payment_status'])
      .drop_duplicates('suborderno', keep='last')] *)
Definition status_summary (payments : list Payment) : gmap string Cell :=
  fold_left
    (fun (m : gmap string Cell) p => <[pay_id p := pay_status p]> m)
    (filter (fun p => notna (pay_status p) = true) payments) ∅.

(** [payment_summary]: for each order id its amount and payment status. *)
Definition payment_summary (frames : list Frame)
  : gmap string (Qc * Cell) :=
  match frames with
  | [] => ∅
  | _ =>
      let payments := all_payments frames in
      if has_status_column frames then
        map_imap
          (fun k a => Some (a, default CNull (status_summary payments !! k)))
          (amount_summary payments)
      else (fun a => (a, CNull)) <$> amount_summary payments
  end.

(** The payment aggregator as a whole: the frames collected from the
    uploaded files, summarised. *)
Definition payment_aggregator (uploaded_payments : list Workbook)
  : option (gmap string (Qc * Cell)) :=
  payment_summary <$> payment_frames uploaded_payments.

(** *** 4. Merge and calculate (lines 169-205) *)

(** A row of [final_df] after the left merge on the order id and
    [fillna(0)] on [amount]. The key column of the payment summary is
    not read after the merge and is left out of the row. *)
Definition merge_row (summary : gmap string (Qc * Cell))
  (id_col : string) (orow : gmap string Cell) : gmap string Cell :=
  let hit := orow !! id_col ≫= (fun c => summary !! cell_str c) in
  <["payment_status" := default CNull (snd <$> hit)]>
    (<["amount" := CNum (default 0%Qc (fst <$> hit))]> orow).

(** [final_df["amount"]] of a row, numeric after [fillna(0)]. *)
Definition row_amount (row : gmap string Cell) : Qc :=
  coerce0 (default CNull (row !! "amount")).

Definition get_final_status (status_col : option string)
  (row : gmap string Cell) : string :=
  if notna (default CNull (row !! "payment_status")) then
    Py.lower (cell_str (default CNull (row !! "payment_status")))
  else
    match status_col with
    | Some col =>
        if Py.truthy status_col && notna (default CNull (row !! col)) then
          Py.lower (cell_str (default CNull (row !! col)))
        else "unknown"
    | None => "unknown"
    end.

Definition get_unit_cost (sku_col : option string)
  (costs : gmap string Qc) (fallback_product_cost : Qc)
  (row : gmap string Cell) : Qc :=
  match sku_col with
  | Some col =>
      if Py.truthy sku_col then
        let sku_val :=
          Py.lower (Py.strip (match row !! col with
                              | Some c => cell_str c
                              | None => EmptyString
                              end)) in
        default fallback_product_cost (costs !! sku_val)
      else fallback_product_cost
  | None => fallback_product_cost
  end.

Definition valid_cost_statuses : list string :=
  ["delivered"; "exchange"; "return"; "customer return"].

(** [row.get('quantity', 1)] made numeric, 1 when it is NaN. *)
Definition quantity (row : gmap string Cell) : Qc :=
  match row !! "quantity" with
  | Some c => default 1%Qc (to_numeric c)
  | None => 1%Qc
  end.

(** [statuses] is the list [valid_cost_statuses] of the enclosing scope;
    [final_status] and [unit_cost] are [row['final_status']] and
    [row['unit_cost']]. *)
Definition calculate_total_cost (statuses : list string)
  (final_status : string) (unit_cost : Qc) (row : gmap string Cell) : Qc :=
  if Py.any_in statuses final_status then
    (unit_cost * quantity row)%Qc
  else 0%Qc.

Definition reconcile_row (cfg : Config) (costs : gmap string Qc)
  (status_col sku_col : option string) (row : gmap string Cell)
  : Reconciled :=
  let status := get_final_status status_col row in
  let unit := get_unit_cost sku_col costs (fallback_product_cost cfg) row in
  let cost := calculate_total_cost valid_cost_statuses status unit row in
  {| rec_row := row;
     final_status := status;
     unit_cost := unit;
     product_cost := cost;
     packaging := packaging_cost cfg;
     net_profit := (row_amount row - cost - packaging_cost cfg)%Qc |}.

(** The table [final_df] (sections 1 to 4 of the script). An order table
    that has a column [amount] gets [amount_x] and [amount_y] from the
    merge, and [final_df["amount"]] is a KeyError. *)
Definition final_df (cfg : Config)
  (uploaded_cost_sheet : option (option DataFrame))
  (orders_df : DataFrame) (uploaded_payments : list Workbook)
  : Run (list Reconciled) :=
  let costs := cost_map uploaded_cost_sheet in
  match process_orders orders_df with
  | None => Stopped
  | Some orders =>
      match payment_frames uploaded_payments with
      | None => OutsideModel
      | Some frames =>
          if bool_decide ("amount" ∈ order_labels orders) then TopLevelError
          else
            let summary := payment_summary frames in
            Done (map (fun orow =>
                         reconcile_row cfg costs (order_status_col orders)
                           (order_sku_col orders)
                           (merge_row summary (order_id_col orders) orow))
                    (order_rows orders))
      end
  end.

End Engine.

(** ** Shapes of the text that [str] of a list produces *)

(** Characters that [str] of a list adds around and between the texts. *)
Definition structural (c : Ascii.ascii) : bool :=
  let n := Py.code c in
  ((n =? 92) || (n =? 39) || (n =? 34) || (n =? 91) || (n =? 93)
   || (n =? 44) || (n =? 32))%N.

(** Characters that can follow the backslash of an escape sequence. *)
Definition escape_tail (c : Ascii.ascii) : bool :=
  let n := Py.code c in
  structural c
  || ((n =? 116) || (n =? 110) || (n =? 114) || (n =? 120)
      || ((48 <=? n) && (n <=? 57)) || ((97 <=? n) && (n <=? 102)))%N.

Fixpoint all_chars (p : Ascii.ascii -> bool) (s : string) : bool :=
  match s with
  | EmptyString => true
  | String c s' => p c && all_chars p s'
  end.

(** A key whose occurrences survive [str]: no structural character, and a
    first character that no escape sequence produces. *)
Definition plain_key (k : string) : bool :=
  match k with
  | EmptyString => false
  | String c _ =>
      negb (escape_tail c) && all_chars (fun x => negb (structural x)) k
  end.

(** [repr_char] gives the character itself, or a backslash followed by
    escape characters. *)
Definition repr_char_shape (q c : Ascii.ascii) : bool :=
  match Py.repr_char q c with
  | EmptyString => false
  | String h t =>
      (Ascii.eqb h c && String.eqb t EmptyString)
      || (Ascii.eqb h Py.backslash && all_chars escape_tail t)
  end.

(** A character that [repr] prints as it is under either quote, and a key
    made of such characters. *)
Definition literal_char (c : Ascii.ascii) : bool :=
  String.eqb (Py.repr_char Py.squote c) (String c EmptyString)
  && String.eqb (Py.repr_char Py.dquote c) (String c EmptyString).

Definition literal_key (k : string) : bool := all_chars literal_char k.

(** ** Inputs of the worked examples *)

Definition rat (n : Z) (d : positive) : Qc := Q2Qc (n # d).

(** An instance of the two parameters of the engine for the closed
    examples: no text is read as a number, and a number prints as a fixed
    text (the examples keep numbers out of the cells that are printed). *)
Definition no_text_number (s : string) : option Qc := None.
Definition number_text (q : Qc) : string := "<number>".

(** A row of [final_df] with settlement amount 200, quantity 2 and the
    payment status Delivered. *)
Definition delivered_row : gmap string Cell :=
  <["amount" := CNum (rat 200 1)]>
    (<["quantity" := CNum (rat 2 1)]>
       (<["payment_status" := CStr "Delivered"]> ∅)).

(** A row with quantity 2 and nothing else. *)
Definition two_items_row : gmap string Cell :=
  <["quantity" := CNum (rat 2 1)]> ∅.

(** A row whose payment status is Return and whose order status, in the
    column [orderstatus], is Delivered. *)
Definition return_row : gmap string Cell :=
  <["payment_status" := CStr "Return"]>
    (<["orderstatus" := CStr "Delivered"]> ∅).

Definition fifty_five : Config :=
  {| fallback_product_cost := rat 50 1; packaging_cost := rat 5 1 |}.

(** An order row whose cell in the column [sku] is empty. *)
Definition no_sku_row : gmap string Cell :=
  <["sku" := CNull]> (<["suborderno" := CStr "A7"]> ∅).

(** A cost sheet with a row whose SKU cell is empty. *)
Definition cost_sheet_with_gap : DataFrame :=
  {| columns := ["SKU"; "Cost"];
     rows := [[CStr "shirt-red"; CNum (rat 40 1)];
              [CNull; CNum (rat 7 1)]] |}.

(** Sum of a list of amounts. *)
Definition sum_amounts (l : list Qc) : Qc := foldr Qcplus 0%Qc l.

(** Sum of the amounts of a summary, over its order ids. *)
Definition summary_total (m : gmap string Qc) : Qc :=
  map_fold (fun _ a acc => (a + acc)%Qc) 0%Qc m.

(** The payments of an order id among the rows of [all_payments]. *)
Definition payments_of (oid : string) (payments : list Payment)
  : list Payment :=
  filter (fun p => pay_id p = oid) payments.

(** The last payment status that is not empty, if any. *)
Definition last_status (payments : list Payment) : option Cell :=
  last (filter (fun c => notna c = true) (map pay_status payments)).

(** Two payments of 120.50 and -15.00 for the order X1, and one for X2. *)
Definition x1_frame : Frame :=
  {| has_status := false;
     frame_rows :=
       [ {| suborderno := "X1"; amount := CNum (rat 12050 100);
            payment_status := CNull |};
         {| suborderno := "X2"; amount := CNum (rat 30 1);
            payment_status := CNull |};
         {| suborderno := "X1"; amount := CNum (rat (-15) 1);
            payment_status := CNull |} ] |}.

(** Payment rows with a status: the order Y1 is Shipped, then Delivered,
    then has no status; the order Y2 never has one. *)
Definition y_frame : Frame :=
  {| has_status := true;
     frame_rows :=
       [ {| suborderno := "Y1"; amount := CNum (rat 10 1);
            payment_status := CStr "Shipped" |};
         {| suborderno := "Y2"; amount := CNum (rat 20 1);
            payment_status := CNull |};
         {| suborderno := "Y1"; amount := CNum (rat 5 1);
            payment_status := CStr "Delivered" |};
         {| suborderno := "Y1"; amount := CNum (rat 1 1);
            payment_status := CNull |} ] |}.

(** A sheet with a title row above its header and exactly two data rows
    under the first reading; read with the second row as header it has
    the two columns the aggregator needs. *)
Definition two_row_table : DataFrame :=
  {| columns := ["Payment Report"; "Unnamed: 1"];
     rows := [[CStr "Sub Order No"; CStr "Final Settlement Amount"];
              [CStr "A1"; CNum (rat 100 1)]] |}.

Definition two_row_reread : DataFrame :=
  {| columns := ["Sub Order No"; "Final Settlement Amount"];
     rows := [[CStr "A1"; CNum (rat 100 1)]] |}.

Definition two_row_sheet : Sheet :=
  {| read_header0 := Some two_row_table;
     read_header1 := Some two_row_reread |}.

(** The same title row with three data rows under the first reading. *)
Definition three_row_table : DataFrame :=
  {| columns := ["Payment Report"; "Unnamed: 1"];
     rows := [[CStr "Sub Order No"; CStr "Final Settlement Amount"];
              [CStr "A1"; CNum (rat 100 1)];
              [CStr "A2"; CNum (rat 50 1)]] |}.

Definition three_row_reread : DataFrame :=
  {| columns := ["Sub Order No"; "Final Settlement Amount"];
     rows := [[CStr "A1"; CNum (rat 100 1)]; [CStr "A2"; CNum (rat 50 1)]] |}.

Definition three_row_sheet : Sheet :=
  {| read_header0 := Some three_row_table;
     read_header1 := Some three_row_reread |}.

(** A sheet that [pd.read_excel] cannot parse. *)
Definition unreadable_sheet : Sheet :=
  {| read_header0 := None; read_header1 := None |}.

(** A sheet without an order id column. *)
Definition summary_sheet : Sheet :=
  {| read_header0 :=
       Some {| columns := ["Month"; "Net Amount"];
               rows := [[CStr "Jan"; CNum (rat 10 1)];
                        [CStr "Feb"; CNum (rat 20 1)]] |};
     read_header1 := None |}.

(** A sheet with two payments for the order X1. *)
Definition x1_sheet : Sheet :=
  {| read_header0 :=
       Some {| columns := ["Sub Order No"; "Final Settlement Amount"];
               rows := [[CStr "X1"; CNum (rat 12050 100)];
                        [CStr "X1"; CNum (rat (-15) 1)]] |};
     read_header1 := None |}.

(** Two payment files, each with one sheet; the order X1 is paid 120.50
    in the first and -15.00 in the second. *)
Definition first_file : Workbook :=
  Some [ {| read_header0 :=
              Some {| columns := ["Sub Order No"; "Final Settlement Amount"];
                      rows := [[CStr "X1"; CNum (rat 12050 100)];
                               [CStr "X2"; CNum (rat 30 1)]] |};
            read_header1 := None |} ].

Definition second_file : Workbook :=
  Some [ {| read_header0 :=
              Some {| columns := ["Sub Order No"; "Final Settlement Amount"];
                      rows := [[CStr "X1"; CNum (rat (-15) 1)];
                               [CStr "X3"; CNum (rat 7 1)]] |};
            read_header1 := None |} ].

(** The scenario of the specification: the orders A1 (SKU shirt-red,
    quantity 2, Delivered) and A2 (SKU shirt-blue, Cancelled), the cost 40
    for shirt-red, fallback cost 20, packaging 5, and a payment of 300 for
    A1 (with a payment of another order, as a sheet with fewer than 2
    rows is skipped). *)
Definition scenario_orders : DataFrame :=
  {| columns := ["Sub Order No"; "SKU"; "Quantity"; "Order Status"];
     rows := [[CStr "A1"; CStr "shirt-red"; CNum (rat 2 1); CStr "Delivered"];
              [CStr "A2"; CStr "shirt-blue"; CNull; CStr "Cancelled"]] |}.

Definition scenario_costs : DataFrame :=
  {| columns := ["SKU"; "Cost"];
     rows := [[CStr "shirt-red"; CNum (rat 40 1)]] |}.

Definition scenario_payments : list Workbook :=
  [ Some [ {| read_header0 :=
                Some {| columns := ["Sub Order No"; "Final Settlement Amount"];
                        rows := [[CStr "A1"; CNum (rat 300 1)];
                                 [CStr "B7"; CNum (rat 10 1)]] |};
              read_header1 := None |} ] ].

Definition scenario_config : Config :=
  {| fallback_product_cost := rat 20 1; packaging_cost := rat 5 1 |}.

(** What the worked examples read off a record. *)
Definition figures (parse_num : string -> option Qc) (r : Reconciled)
  : string * Q * Q * Q * Q :=
  (final_status r, this (row_amount parse_num (rec_row r)),
   this (unit_cost r), this (product_cost r), this (net_profit r)).

(** ** 5. Metrics (app1.py, lines 210-223 and 230) *)

(** The headline figures of a run. *)
Record Metrics := {
  total_orders : nat;
  payout_settled : Qc;
  total_product_cost : Qc;
  total_profit : Qc;
  delivered : nat;
  returned : nat;
  rtos : nat;
  cancelled : nat;
  average_profit : Qc
}.

Section MetricsOfRun.

Variable parse_num : string -> option Qc.

(** [count_status_final]: the rows whose final status matches the pattern
    ['|'.join(keywords)]. The pattern is a regular expression; for
    keywords made of letters, as in the four calls below, it matches
    exactly when one of the keywords occurs in the status. *)
Definition count_status_final (records : list Reconciled)
  (keywords : list string) : nat :=
  length (filter (fun r => Py.any_in keywords (final_status r) = true) records).

(** Section 5 of the script on the rows of [final_df]; the average is
    the number shown by the fourth tile, 0 when there is no order. *)
Definition metrics (records : list Reconciled) : Metrics :=
  let n := length records in
  let profit := sum_amounts (map net_profit records) in
  {| total_orders := n;
     payout_settled :=
       sum_amounts (map (fun r => row_amount parse_num (rec_row r)) records);
     total_product_cost := sum_amounts (map product_cost records);
     total_profit := profit;
     delivered := count_status_final records ["delivered"];
     returned := count_status_final records ["return"; "customerreturn"];
     rtos := count_status_final records ["rto"; "undelivered"];
     cancelled := count_status_final records ["cancel"];
     average_profit :=
       if (n =? 0)%nat then 0%Qc
       else (profit / Qc_of_Z (Z.of_nat n))%Qc |}.

End MetricsOfRun.

(** An order table whose first matching column is the order id, not the
    sub-order number. *)
Definition two_id_orders : DataFrame :=
  {| columns := ["Order ID"; "Sub Order No"; "Order Status"];
     rows := [[CStr "O1"; CStr "S1"; CStr "Shipped"]] |}.

(** An order row with a SKU in another capitalisation and with spaces. *)
Definition shouting_sku_row : gmap string Cell :=
  <["sku" := CStr "  Shirt-RED "]> ∅.

(** An order row of the order A2 whose status is Cancelled. *)
Definition cancelled_orow : gmap string Cell :=
  <["suborderno" := CStr "A2"]> (<["orderstatus" := CStr "Cancelled"]> ∅).

(** The table of [x1_sheet]. *)
Definition x1_table : DataFrame :=
  {| columns := ["Sub Order No"; "Final Settlement Amount"];
     rows := [[CStr "X1"; CNum (rat 12050 100)];
              [CStr "X1"; CNum (rat (-15) 1)]] |}.

(** * Properties *)

(** ** Text *)

Example lower_ex : Py.lower "Sub Order No" = "sub order no".
Proof. reflexivity. Qed.

Example strip_ex : Py.strip "  Shirt-Red " = "Shirt-Red".
Proof. reflexivity. Qed.

Example contains_ex :
  Py.contains "return" "customer return initiated" = true
  /\ Py.contains "rto" "delivered" = false.
Proof. split; reflexivity. Qed.

Example str_list_ex :
  Py.str_list ["unnamed:0"; "amount"] = "['unnamed:0', 'amount']".
Proof. reflexivity. Qed.

Lemma append_cons (c : Ascii.ascii) (a b : string) :
  String c a +:+ b = String c (a +:+ b).
Proof. reflexivity. Qed.

Lemma append_nil_l (s : string) : EmptyString +:+ s = s.
Proof. reflexivity. Qed.

Lemma append_nil_r (s : string) : s +:+ EmptyString = s.
Proof.
  induction s as [|c s IH]; [done |]. by rewrite append_cons, IH.
Qed.

Lemma append_assoc (a b c : string) : (a +:+ b) +:+ c = a +:+ (b +:+ c).
Proof.
  induction a as [|x a IH]; [done |]. by rewrite !append_cons, IH.
Qed.

Lemma starts_with_spec (k s : string) :
  Py.starts_with k s = true ↔ ∃ post, s = k +:+ post.
Proof.
  revert s. induction k as [|a k IH]; intros s; simpl.
  - split; [intros _; by exists s | done].
  - destruct s as [|b s].
    + split; [done | intros [post H]; discriminate].
    + rewrite andb_true_iff, Ascii.eqb_eq, IH. split.
      * intros [-> [post ->]]. by exists post.
      * intros [post H]. rewrite append_cons in H. injection H as -> ->.
        split; [done | by exists post].
Qed.

Lemma contains_spec (k s : string) :
  Py.contains k s = true ↔ ∃ pre post, s = pre +:+ (k +:+ post).
Proof.
  induction s as [|c s IH]; simpl; rewrite orb_true_iff.
  - rewrite starts_with_spec. split.
    + intros [[post H]|?]; [| done]. by exists EmptyString, post.
    + intros [pre [post H]]. left.
      destruct pre; [by exists post | discriminate].
  - rewrite starts_with_spec, IH. split.
    + intros [[post H]|[pre [post H]]].
      * by exists EmptyString, post.
      * exists (String c pre), post. by rewrite append_cons, H.
    + intros [pre [post H]]. destruct pre as [|x pre].
      * left. by exists post.
      * right. rewrite append_cons in H. injection H as -> ->.
        by exists pre, post.
Qed.

(** A text that contains [a ++ b] contains [b]. *)
Lemma contains_suffix_of_keyword (a b s : string) :
  Py.contains (a +:+ b) s = true → Py.contains b s = true.
Proof.
  rewrite !contains_spec. intros [pre [post ->]].
  exists (pre +:+ a), post. by rewrite !append_assoc.
Qed.

Lemma remove_char_append (c : Ascii.ascii) (a b : string) :
  Py.remove_char c (a +:+ b) = Py.remove_char c a +:+ Py.remove_char c b.
Proof.
  induction a as [|x a IH]; [done |]. rewrite append_cons. simpl.
  destruct (Ascii.eqb x c); [done |]. by rewrite append_cons, IH.
Qed.

Lemma remove_char_absent (c : Ascii.ascii) (k : string) :
  Py.has_char c k = false → Py.remove_char c k = k.
Proof.
  unfold Py.has_char. induction k as [|x k IH]; simpl; [done |].
  rewrite !orb_false_iff, andb_true_r. intros [Hx Hk].
  rewrite Ascii.eqb_sym, Hx. f_equal. by apply IH.
Qed.

(** Removing a character that does not occur in [k] keeps every occurrence
    of [k]. *)
Lemma contains_remove_char (c : Ascii.ascii) (k s : string) :
  Py.has_char c k = false →
  Py.contains k s = true → Py.contains k (Py.remove_char c s) = true.
Proof.
  intros Hk. rewrite !contains_spec. intros [pre [post ->]].
  exists (Py.remove_char c pre), (Py.remove_char c post).
  by rewrite !remove_char_append, (remove_char_absent c k Hk).
Qed.

(** ** [str] of a list of labels

    An occurrence of a key made of plain letters in [str(list(l))] lies
    inside one element of [l]: the brackets, the quotes, the separators
    and the escape sequences of [repr] cannot be part of it. *)

Lemma repr_char_shape_squote (c : Ascii.ascii) :
  repr_char_shape Py.squote c = true.
Proof.
  destruct c as [[] [] [] [] [] [] [] []]; vm_compute; reflexivity.
Qed.

Lemma repr_char_shape_dquote (c : Ascii.ascii) :
  repr_char_shape Py.dquote c = true.
Proof.
  destruct c as [[] [] [] [] [] [] [] []]; vm_compute; reflexivity.
Qed.

Lemma quote_of_cases (s : string) :
  Py.quote_of s = Py.squote ∨ Py.quote_of s = Py.dquote.
Proof. unfold Py.quote_of. destruct (_ && _); auto. Qed.

Lemma repr_char_cases (s : string) (c : Ascii.ascii) :
  Py.repr_char (Py.quote_of s) c = String c EmptyString
  ∨ ∃ t, Py.repr_char (Py.quote_of s) c = String Py.backslash t
         ∧ all_chars escape_tail t = true.
Proof.
  assert (repr_char_shape (Py.quote_of s) c = true) as H.
  { destruct (quote_of_cases s) as [-> | ->];
      [apply repr_char_shape_squote | apply repr_char_shape_dquote]. }
  unfold repr_char_shape in H.
  destruct (Py.repr_char (Py.quote_of s) c) as [|h t]; [done |].
  apply orb_true_iff in H as [H | H]; apply andb_true_iff in H as [H1 H2].
  - left. apply Ascii.eqb_eq in H1 as ->. by apply String.eqb_eq in H2 as ->.
  - right. apply Ascii.eqb_eq in H1 as ->. by exists t.
Qed.

Lemma structural_quote_of (s : string) : structural (Py.quote_of s) = true.
Proof. by destruct (quote_of_cases s) as [-> | ->]. Qed.

Lemma structural_escape_tail (c : Ascii.ascii) :
  structural c = true → escape_tail c = true.
Proof. unfold escape_tail. by intros ->. Qed.

(** A key does not start at a character that is not its first. *)
Lemma starts_with_head (c a : Ascii.ascii) (k s : string) :
  Py.starts_with (String c k) (String a s) = true → c = a.
Proof. simpl. intros [H _]%andb_true_iff. by apply Ascii.eqb_eq. Qed.

Lemma contains_skip (c a : Ascii.ascii) (k s : string) :
  c ≠ a →
  Py.contains (String c k) (String a s) = true →
  Py.contains (String c k) s = true.
Proof.
  intros Hne H. simpl in H. apply orb_true_iff in H as [H | H]; [| done].
  apply andb_true_iff in H as [H _]. by apply Ascii.eqb_eq in H.
Qed.

Lemma contains_skip_tail (c : Ascii.ascii) (k t s : string) :
  escape_tail c = false → all_chars escape_tail t = true →
  Py.contains (String c k) (t +:+ s) = true →
  Py.contains (String c k) s = true.
Proof.
  intros Hc. induction t as [|a t IH]; [done |]. cbn [all_chars].
  intros [Ha Ht]%andb_true_iff H. rewrite append_cons in H.
  apply IH; [done |]. eapply contains_skip; [| done]. congruence.
Qed.

Lemma contains_cons (k : string) (a : Ascii.ascii) (s : string) :
  Py.contains k s = true → Py.contains k (String a s) = true.
Proof. intros H. simpl. rewrite H. apply orb_true_r. Qed.

(** A key that starts in the body of a literal lies in the text. *)
Lemma starts_with_repr_body (x : string) (k s rest : string) :
  all_chars (fun c => negb (structural c)) k = true →
  Py.starts_with k
    (Py.repr_body (Py.quote_of x) s +:+ String (Py.quote_of x) rest) = true →
  Py.starts_with k s = true.
Proof.
  revert s. induction k as [|c k IH]; intros s Hk H; [done |].
  simpl in Hk. apply andb_true_iff in Hk as [Hc Hk].
  apply negb_true_iff in Hc.
  destruct s as [|a s]; cbn [Py.repr_body] in H.
  - rewrite append_nil_l in H. apply starts_with_head in H as ->.
    by rewrite structural_quote_of in Hc.
  - rewrite append_assoc in H.
    destruct (repr_char_cases x a) as [E | [t [E _]]];
      rewrite E, append_cons in H.
    + rewrite append_nil_l in H. cbn [Py.starts_with] in H |- *.
      apply andb_true_iff in H as [-> H]. simpl. by apply IH.
    + apply starts_with_head in H as ->. by vm_compute in Hc.
Qed.

Lemma contains_repr_body (x : string) (k s rest : string) :
  plain_key k = true →
  Py.contains k
    (Py.repr_body (Py.quote_of x) s +:+ String (Py.quote_of x) rest) = true →
  Py.contains k s = true ∨ Py.contains k rest = true.
Proof.
  destruct k as [|c k]; [done |]. unfold plain_key.
  intros [Hc Hk]%andb_true_iff. apply negb_true_iff in Hc.
  induction s as [|a s IH]; intros H.
  - right. cbn [Py.repr_body] in H. rewrite append_nil_l in H.
    eapply contains_skip; [| done]. intros ->.
    by rewrite (structural_escape_tail _ (structural_quote_of x)) in Hc.
  - assert (Py.contains (String c k) s = true
            ∨ Py.contains (String c k) rest = true
            → Py.contains (String c k) (String a s) = true
              ∨ Py.contains (String c k) rest = true) as Hlift.
    { intros [? | ?]; [left; by apply contains_cons | by right]. }
    cbn [Py.repr_body] in H. rewrite append_assoc in H.
    destruct (repr_char_cases x a) as [E | [t [E Ht]]];
      rewrite E, append_cons in H.
    + rewrite append_nil_l in H.
      cbn [Py.contains] in H. apply orb_true_iff in H as [H | H].
      * left. cbn [Py.contains]. apply orb_true_iff. left.
        apply (starts_with_repr_body x _ _ rest); [done |].
        cbn [Py.repr_body]. by rewrite E, append_assoc.
      * by apply Hlift, IH.
    + apply Hlift, IH. apply (contains_skip_tail c k t); [done.. |].
      eapply contains_skip; [| done]. intros ->. by vm_compute in Hc.
Qed.

Lemma contains_repr (x : string) (k rest : string) :
  plain_key k = true →
  Py.contains k (Py.repr x +:+ rest) = true →
  Py.contains k x = true ∨ Py.contains k rest = true.
Proof.
  intros Hk H. unfold Py.repr in H.
  rewrite append_cons, append_assoc, append_cons, append_nil_l in H.
  apply (contains_repr_body x); [done |].
  destruct k as [|c k]; [done |].
  eapply contains_skip; [| done]. intros ->.
  apply andb_true_iff in Hk as [Hc _]. apply negb_true_iff in Hc.
  by rewrite (structural_escape_tail _ (structural_quote_of x)) in Hc.
Qed.

Lemma contains_join_reprs (k : string) (l : list string) (rest : string) :
  plain_key k = true →
  Py.contains k (Py.join_reprs l +:+ rest) = true →
  (∃ x, x ∈ l ∧ Py.contains k x = true) ∨ Py.contains k rest = true.
Proof.
  intros Hk. induction l as [|x l IH]; intros H.
  - by right.
  - destruct l as [|y l].
    + cbn [Py.join_reprs] in H.
      destruct (contains_repr x k rest Hk H) as [Hx | Hr]; [left | by right].
      exists x. split; [apply list_elem_of_here | done].
    + change (Py.join_reprs (x :: y :: l))
        with (Py.repr x +:+ ", " +:+ Py.join_reprs (y :: l)) in H.
      rewrite !append_assoc in H.
      destruct (contains_repr x k _ Hk H) as [Hx | Hr].
      * left. exists x. split; [apply list_elem_of_here | done].
      * assert (Py.contains k (Py.join_reprs (y :: l) +:+ rest) = true) as H'.
        { destruct k as [|c k]; [done |].
          apply andb_true_iff in Hk as [Hc _]. apply negb_true_iff in Hc.
          do 2 (eapply contains_skip in Hr;
                [| intros ->; by vm_compute in Hc]).
          done. }
        destruct (IH H') as [[z [Hz Hkz]] | Hr']; [left | by right].
        exists z. split; [by apply list_elem_of_further | done].
Qed.

(** A plain key found in [str(list(l))] is found in an element of [l]. *)
Lemma contains_str_list (k : string) (l : list string) :
  plain_key k = true →
  Py.contains k (Py.str_list l) = true →
  ∃ x, x ∈ l ∧ Py.contains k x = true.
Proof.
  intros Hk H. unfold Py.str_list in H.
  destruct k as [|c k]; [done |].
  pose proof Hk as Hk'.
  apply andb_true_iff in Hk' as [Hc _]. apply negb_true_iff in Hc.
  rewrite append_cons, append_nil_l in H.
  eapply contains_skip in H; [| intros ->; by vm_compute in Hc].
  destruct (contains_join_reprs _ l _ Hk H) as [? | Hr]; [done |].
  exfalso. eapply contains_skip in Hr; [| intros ->; by vm_compute in Hc].
  by vm_compute in Hr.
Qed.

(** ** Column resolver *)

Lemma any_in_spec (keywords : list string) (s : string) :
  Py.any_in keywords s = true ↔ ∃ k, k ∈ keywords ∧ Py.contains k s = true.
Proof.
  unfold Py.any_in. rewrite existsb_exists.
  split; intros [k [Hk H]]; exists k; split; try done;
    by apply list_elem_of_In.
Qed.

Lemma any_in_false (keywords : list string) (s : string) :
  Py.any_in keywords s = false ↔ ∀ k, k ∈ keywords → Py.contains k s = false.
Proof.
  rewrite <-not_true_iff_false, any_in_spec. split.
  - intros H k Hk. apply not_true_iff_false. intros Hc. apply H. by exists k.
  - intros H [k [Hk Hc]]. by rewrite (H k Hk) in Hc.
Qed.

Lemma find_label_some (cols keywords : list string) (c : string) :
  find_label cols keywords = Some c ↔
  ∃ before after,
    cols = before ++ c :: after
    ∧ Py.any_in keywords c = true
    ∧ Forall (fun x => Py.any_in keywords x = false) before.
Proof.
  induction cols as [|x cols IH]; simpl.
  - split; [done | intros [[|??] [? [? _]]]; discriminate].
  - destruct (Py.any_in keywords x) eqn:Hx.
    + split.
      * intros [= ->]. by exists [], cols.
      * intros [[|y before] [after [E [Hc Hb]]]]; simplify_eq/=; [done |].
        apply Forall_cons in Hb as [Hy _]. congruence.
    + rewrite IH. split.
      * intros [before [after [-> [Hc Hb]]]].
        exists (x :: before), after. by repeat split; [| apply Forall_cons].
      * intros [[|y before] [after [E [Hc Hb]]]]; simplify_eq/=; [congruence |].
        apply Forall_cons in Hb as [_ Hb]. by exists before, after.
Qed.

Lemma find_label_none (cols keywords : list string) :
  find_label cols keywords = None ↔
  Forall (fun x => Py.any_in keywords x = false) cols.
Proof.
  induction cols as [|x cols IH]; simpl; [by split |].
  rewrite Forall_cons. destruct (Py.any_in keywords x); [| by rewrite IH; tauto].
  split; [done | by intros [? _]].
Qed.

(** C7. On a table with normalised labels, [find_column] returns the first
    label, in the order of the columns, that contains one of the keywords
    as a substring, and nothing when no label does. Normalising replaces
    each label by its lower-case form without spaces, underscores and
    periods, and leaves the rows as they are. *)
Theorem find_column_first_match (df : DataFrame) (keywords : list string) :
  let ndf := normalize_columns df in
  columns ndf = map normalize_name (columns df)
  ∧ rows ndf = rows df
  ∧ (∀ c, find_column ndf keywords = Some c ↔
          ∃ before after,
            columns ndf = before ++ c :: after
            ∧ (∃ k, k ∈ keywords ∧ Py.contains k c = true)
            ∧ ∀ x k, x ∈ before → k ∈ keywords → Py.contains k x = false)
  ∧ (find_column ndf keywords = None ↔
     ∀ x k, x ∈ columns ndf → k ∈ keywords → Py.contains k x = false).
Proof.
  intros ndf. split; [done |]. split; [done |]. split.
  - intros c. unfold find_column. rewrite find_label_some.
    split; intros [before [after [E [Hc Hb]]]]; exists before, after;
      (split; [done |]); split.
    + by apply any_in_spec.
    + intros x k Hx Hk. rewrite Forall_forall in Hb.
      by apply (proj1 (any_in_false keywords x) (Hb x Hx)).
    + by apply any_in_spec.
    + apply Forall_forall. intros x Hx. apply any_in_false.
      intros k Hk. by apply Hb.
  - unfold find_column. rewrite find_label_none, Forall_forall. split.
    + intros H x k Hx Hk. by apply (proj1 (any_in_false keywords x) (H x Hx)).
    + intros H x Hx. apply any_in_false. intros k Hk. by apply H.
Qed.

Example normalize_name_ex :
  normalize_name "Sub Order_No." = "suborderno"
  ∧ normalize_name "Final Settlement Amount" = "finalsettlementamount".
Proof. split; reflexivity. Qed.

Example find_column_ex :
  find_column
    (normalize_columns
       {| columns := ["Order Date"; "Sub Order No"; "Order ID"]; rows := [] |})
    ["suborder"; "orderid"] = Some "suborderno".
Proof. reflexivity. Qed.

(** ** Status resolver and cost calculator *)

Section RowFacts.

Variable parse_num : string -> option Qc.
Variable str_num : Qc -> string.

Lemma rat_eq (a b : Qc) : (this a == this b)%Q → a = b.
Proof. apply Qc_is_canon. Qed.

(** C10. The keyword [customer return] changes nothing: a status contains
    one of the four keywords exactly when it contains one of the first
    three, because a text that contains [customer return] contains
    [return]; so the product cost is the same without the fourth
    keyword. *)
Theorem customer_return_keyword_inert (s : string) (unit : Qc)
  (row : gmap string Cell) :
  valid_cost_statuses = ["delivered"; "exchange"; "return"; "customer return"]
  ∧ (Py.contains "customer return" s = true → Py.contains "return" s = true)
  ∧ Py.any_in valid_cost_statuses s
    = Py.any_in ["delivered"; "exchange"; "return"] s
  ∧ calculate_total_cost parse_num valid_cost_statuses s unit row
    = calculate_total_cost parse_num ["delivered"; "exchange"; "return"]
        s unit row.
Proof.
  assert (Py.contains "customer return" s = true
          → Py.contains "return" s = true) as Hsub.
  { apply (contains_suffix_of_keyword "customer " "return"). }
  assert (Py.any_in valid_cost_statuses s
          = Py.any_in ["delivered"; "exchange"; "return"] s) as Hany.
  { unfold valid_cost_statuses, Py.any_in. cbn [existsb].
    destruct (Py.contains "customer return" s) eqn:E.
    - rewrite (Hsub eq_refl). by rewrite !orb_true_r.
    - by rewrite !orb_false_r. }
  repeat split; [done | done |].
  unfold calculate_total_cost. by rewrite Hany.
Qed.

(** C3. The product cost of an order is decided once: it is the unit cost
    times the quantity when the final status contains one of the four
    keywords, and 0 otherwise. A status that matches two keywords, such as
    [customer return initiated], is charged once: unit cost 50 and
    quantity 2 give 100. *)
Theorem product_cost_all_or_nothing (cfg : Config) (costs : gmap string Qc)
  (status_col sku_col : option string) (row : gmap string Cell) :
  let r := reconcile_row parse_num str_num cfg costs status_col sku_col row in
  product_cost r
  = (if Py.any_in ["delivered"; "exchange"; "return"; "customer return"]
          (final_status r)
     then unit_cost r * quantity parse_num row
     else 0)%Qc
  ∧ ((∃ k, k ∈ ["delivered"; "exchange"; "return"; "customer return"]
           ∧ Py.contains k (final_status r) = true)
     → product_cost r = (unit_cost r * quantity parse_num row)%Qc)
  ∧ ((∀ k, k ∈ ["delivered"; "exchange"; "return"; "customer return"]
           → Py.contains k (final_status r) = false)
     → product_cost r = 0%Qc)
  ∧ Py.contains "return" "customer return initiated" = true
  ∧ Py.contains "customer return" "customer return initiated" = true
  ∧ calculate_total_cost parse_num valid_cost_statuses
      "customer return initiated" (rat 50 1) two_items_row = rat 100 1.
Proof.
  intros r.
  assert (product_cost r
          = (if Py.any_in ["delivered"; "exchange"; "return"; "customer return"]
                  (final_status r)
             then unit_cost r * quantity parse_num row
             else 0)%Qc) as E by done.
  split; [done |]. split; [| split].
  - intros H. apply any_in_spec in H. by rewrite E, H.
  - intros H. apply any_in_false in H. by rewrite E, H.
  - split; [reflexivity |]. split; [reflexivity |].
    apply rat_eq. by vm_compute.
Qed.

(** C4. Net profit is the settlement amount minus the product cost minus
    the packaging cost, for every row and so for every record of a run.
    With amount 200, unit cost 50, quantity 2, packaging 5 and the status
    Delivered, the product cost is 100 and the net profit 95. *)
Theorem net_profit_invariant (cfg : Config)
  (uploaded_cost_sheet : option (option DataFrame)) (orders_df : DataFrame)
  (uploaded_payments : list Workbook) :
  (∀ costs status_col sku_col row,
     let r := reconcile_row parse_num str_num cfg costs status_col sku_col row in
     net_profit r
     = (row_amount parse_num (rec_row r) - product_cost r - packaging r)%Qc
     ∧ packaging r = packaging_cost cfg)
  ∧ match final_df parse_num str_num cfg uploaded_cost_sheet orders_df
            uploaded_payments with
    | Done records =>
        Forall (fun r =>
                  net_profit r
                  = (row_amount parse_num (rec_row r) - product_cost r
                     - packaging_cost cfg)%Qc)
          records
    | _ => True
    end
  ∧ (let r := reconcile_row parse_num str_num fifty_five ∅ None None
                delivered_row in
     row_amount parse_num (rec_row r) = rat 200 1
     ∧ unit_cost r = rat 50 1
     ∧ product_cost r = rat 100 1
     ∧ net_profit r = rat 95 1).
Proof.
  split; [done |]. split.
  - unfold final_df. destruct (process_orders _ _); [| done].
    destruct (payment_frames _ _); [| done].
    case_bool_decide; [done |].
    apply Forall_map, Forall_forall. by intros orow _.
  - split; [| split; [| split]]; apply rat_eq; by vm_compute.
Qed.

(** C2. Status resolution follows a fixed precedence and always gives a
    text: the lower-cased payment status when it is present; else the
    lower-cased order status when its column was resolved and the value is
    present; else [unknown]. Every order row of a run gets one record with
    this status. Payment status Return with order status Delivered gives
    [return]. *)
Theorem final_status_precedence (status_col : option string)
  (row : gmap string Cell) (cfg : Config)
  (uploaded_cost_sheet : option (option DataFrame)) (orders_df : DataFrame)
  (uploaded_payments : list Workbook) :
  (∀ c, row !! "payment_status" = Some c → c ≠ CNull →
        get_final_status str_num status_col row
        = Py.lower (cell_str str_num c))
  ∧ (∀ col c,
        row !! "payment_status" = None ∨ row !! "payment_status" = Some CNull →
        status_col = Some col → col ≠ EmptyString →
        row !! col = Some c → c ≠ CNull →
        get_final_status str_num status_col row
        = Py.lower (cell_str str_num c))
  ∧ (row !! "payment_status" = None ∨ row !! "payment_status" = Some CNull →
     status_col = None ∨ status_col = Some EmptyString
     ∨ (∃ col, status_col = Some col
               ∧ (row !! col = None ∨ row !! col = Some CNull)) →
     get_final_status str_num status_col row = "unknown")
  ∧ match final_df parse_num str_num cfg uploaded_cost_sheet orders_df
            uploaded_payments with
    | Done records =>
        length records = len orders_df
        ∧ Forall (fun r =>
                    final_status r
                    = get_final_status str_num
                        (find_column (normalize_columns orders_df)
                           ["orderstatus"; "status"])
                        (rec_row r))
            records
    | _ => True
    end
  ∧ get_final_status str_num (Some "orderstatus") return_row = "return".
Proof.
  split; [| split; [| split; [| split]]].
  - intros c Hc Hn. unfold get_final_status. rewrite Hc. simpl.
    by destruct c.
  - intros col c Hp -> Hcol Hc Hn. unfold get_final_status.
    assert (notna (default CNull (row !! "payment_status")) = false) as ->.
    { by destruct Hp as [-> | ->]. }
    rewrite Hc. simpl.
    assert (String.eqb col EmptyString = false) as ->.
    { by apply String.eqb_neq. }
    simpl. by destruct c.
  - intros Hp Hs. unfold get_final_status.
    assert (notna (default CNull (row !! "payment_status")) = false) as ->.
    { by destruct Hp as [-> | ->]. }
    destruct Hs as [-> | [-> | [col [-> Hc]]]]; [done | done |].
    assert (notna (default CNull (row !! col)) = false) as ->.
    { by destruct Hc as [-> | ->]. }
    by rewrite andb_false_r.
  - unfold final_df, process_orders.
    destruct (find_column _ ["suborder"; "orderid"]) as [c|]; [| done].
    destruct (Py.truthy (Some c)); [| done].
    destruct (payment_frames _ _); [| done].
    cbn [order_labels order_rows order_status_col order_sku_col order_id_col].
    case_bool_decide; [done |]. split.
    + by rewrite !length_map.
    + apply Forall_map, Forall_forall. by intros orow _.
  - reflexivity.
Qed.

(** *** Cost map *)

Lemma cell_at_map_cell_eq (i : nat) (f : Cell -> Cell) (r : list Cell) :
  cell_at i (map_cell i f r) = f (cell_at i r).
Proof.
  unfold map_cell. unfold cell_at at 1.
  rewrite list_lookup_insert_eq; [done |].
  rewrite length_app, length_replicate. lia.
Qed.

Lemma cell_at_map_cell_ne (i j : nat) (f : Cell -> Cell) (r : list Cell) :
  i ≠ j → cell_at j (map_cell i f r) = cell_at j r.
Proof.
  intros Hne. unfold map_cell, cell_at.
  rewrite list_lookup_insert_ne by done.
  destruct (decide (j < length r)) as [Hlt | Hge].
  - by rewrite lookup_app_l.
  - rewrite lookup_app_r by lia.
    rewrite (proj2 (lookup_ge_None r j)) by lia.
    destruct (replicate _ _ !! _) eqn:E; [| done].
    by apply lookup_replicate_1 in E as [-> _].
Qed.

Lemma index_of_lookup (l : string) (cols : list string) (i : nat) :
  index_of l cols = Some i → cols !! i = Some l.
Proof.
  revert i. induction cols as [|c cols IH]; intros i; simpl; [done |].
  destruct (String.eqb_spec c l) as [-> | Hne].
  - by intros [= <-].
  - destruct (index_of l cols) as [j|]; [| done].
    intros [= <-]. by apply IH.
Qed.

Lemma index_of_elem (l : string) (cols : list string) :
  l ∈ cols → ∃ i, index_of l cols = Some i.
Proof.
  induction cols as [|c cols IH]; [by intros ?%elem_of_nil |].
  intros H. simpl. destruct (String.eqb_spec c l) as [-> | Hne]; [by exists 0 |].
  apply elem_of_cons in H as [-> | H]; [done |].
  destruct (IH H) as [i ->]. by exists (S i).
Qed.

Lemma find_label_elem (cols keywords : list string) (c : string) :
  find_label cols keywords = Some c →
  c ∈ cols ∧ Py.any_in keywords c = true.
Proof.
  intros [before [after [-> [H _]]]]%find_label_some. split; [| done].
  apply elem_of_app. right. apply list_elem_of_here.
Qed.

Lemma to_dict_snoc (kvs : list (Cell * Cell)) (kv : Cell * Cell) :
  to_dict parse_num (kvs ++ [kv])
  = match fst kv with
    | CStr k => <[k := coerce0 parse_num (snd kv)]> (to_dict parse_num kvs)
    | _ => to_dict parse_num kvs
    end.
Proof. unfold to_dict. by rewrite fold_left_app. Qed.

(** The dictionary gives for a text key the value of the last row that
    has this key. *)
Lemma to_dict_lookup (kvs : list (Cell * Cell)) (k : string) :
  to_dict parse_num kvs !! k
  = last (map (fun kv => coerce0 parse_num (snd kv))
            (filter (fun kv => fst kv = CStr k) kvs)).
Proof.
  induction kvs as [|kv kvs IH] using rev_ind; [done |].
  rewrite to_dict_snoc, filter_app, map_app, last_app.
  destruct kv as [key v]. simpl.
  rewrite filter_cons, filter_nil. simpl.
  destruct key as [| q | k'].
  - rewrite decide_False by done. simpl. rewrite IH. by destruct (last _).
  - rewrite decide_False by done. simpl. rewrite IH. by destruct (last _).
  - destruct (decide (k' = k)) as [-> | Hne].
    + rewrite decide_True by done. simpl. by rewrite lookup_insert_eq.
    + rewrite decide_False by congruence. simpl.
      rewrite lookup_insert_ne by done. rewrite IH. by destruct (last _).
Qed.

Lemma cost_pairs_last (i j : nat) (k : string) (rs : list (list Cell)) :
  i ≠ j →
  last (map (fun kv => coerce0 parse_num (snd kv))
          (filter (fun kv => fst kv = CStr k)
             (map (fun r => (cell_at i r, cell_at j r))
                (map (map_cell j (fun c => CNum (coerce0 parse_num c)))
                   (map (map_cell i
                           (fun c => CStr (Py.lower
                                             (Py.strip (cell_str str_num c)))))
                      rs)))))
  = last (map (fun r => coerce0 parse_num (cell_at j r))
            (filter (fun r =>
                       Py.lower (Py.strip (cell_str str_num (cell_at i r))) = k)
               rs)).
Proof.
  intros Hne. f_equal. induction rs as [|r rs IH]; [done |].
  rewrite !map_cons, !filter_cons. cbn [fst snd].
  rewrite cell_at_map_cell_ne, cell_at_map_cell_eq by done.
  rewrite cell_at_map_cell_eq, cell_at_map_cell_ne by done.
  destruct (decide (Py.lower (Py.strip (cell_str str_num (cell_at i r))) = k))
    as [E | E].
  - rewrite decide_True by congruence. rewrite !map_cons. cbn [fst snd].
    by rewrite IH.
  - rewrite decide_False by congruence. apply IH.
Qed.

(** The cost map gives for a normalised SKU the cost of the last row of
    the cost sheet that has it. *)
Lemma cost_map_of_lookup (cost_df : DataFrame) (sku cost k : string) :
  let ndf := normalize_columns cost_df in
  find_column ndf ["sku"; "style"; "design"; "productid"] = Some sku →
  find_column ndf ["cost"; "price"; "rate"; "amount"; "purchase"] = Some cost →
  sku ≠ cost →
  cost_map_of parse_num str_num cost_df !! k
  = last (map (fun r => coerce0 parse_num (cell_of ndf cost r))
            (filter (fun r =>
                       Py.lower (Py.strip (cell_str str_num (cell_of ndf sku r)))
                       = k)
               (rows ndf))).
Proof.
  intros ndf Hsku Hcost Hne. unfold cost_map_of. fold ndf.
  rewrite Hsku, Hcost.
  destruct (find_label_elem _ _ _ Hsku) as [Hs1 Hs2].
  destruct (find_label_elem _ _ _ Hcost) as [Hc1 Hc2].
  assert (Py.truthy (Some sku) = true) as ->.
  { destruct sku; [by vm_compute in Hs2 | done]. }
  assert (Py.truthy (Some cost) = true) as ->.
  { destruct cost; [by vm_compute in Hc2 | done]. }
  cbn [andb].
  destruct (index_of_elem _ _ Hs1) as [i Hi].
  destruct (index_of_elem _ _ Hc1) as [j Hj].
  assert (i ≠ j) as Hij.
  { intros ->. apply index_of_lookup in Hi, Hj. congruence. }
  assert (∀ f, map_column sku f ndf
               = {| columns := columns ndf;
                    rows := map (map_cell i f) (rows ndf) |}) as ->.
  { intros f. unfold map_column. by rewrite Hi. }
  assert (∀ g rs, map_column cost g {| columns := columns ndf; rows := rs |}
                  = {| columns := columns ndf;
                       rows := map (map_cell j g) rs |}) as ->.
  { intros g rs. unfold map_column. cbn [columns rows]. by rewrite Hj. }
  rewrite to_dict_lookup. unfold cell_of. cbn [columns rows]. rewrite Hi, Hj.
  by apply cost_pairs_last.
Qed.

(** C9. An order row whose cell in the resolved SKU column is empty is
    looked up under the key [nan]: it gets the fallback product cost
    unless the cost map has an entry for [nan], whose cost is then
    applied. The cost map has such an entry exactly when a row of the cost
    sheet has the normalised SKU [nan], as a row with an empty SKU cell
    has; the cost is that of the last such row. *)
Theorem missing_sku_reads_nan_key (sku_col : option string)
  (costs : gmap string Qc) (fallback : Qc) (row : gmap string Cell)
  (col : string) :
  sku_col = Some col → col ≠ EmptyString → row !! col = Some CNull →
  get_unit_cost str_num sku_col costs fallback row
  = default fallback (costs !! "nan")
  ∧ Py.lower (Py.strip (cell_str str_num CNull)) = "nan"
  ∧ ∀ cost_df sku cost,
      let ndf := normalize_columns cost_df in
      find_column ndf ["sku"; "style"; "design"; "productid"] = Some sku →
      find_column ndf ["cost"; "price"; "rate"; "amount"; "purchase"]
      = Some cost →
      sku ≠ cost →
      cost_map parse_num str_num (Some (Some cost_df)) !! "nan"
      = last (map (fun r => coerce0 parse_num (cell_of ndf cost r))
                (filter (fun r =>
                           Py.lower
                             (Py.strip (cell_str str_num (cell_of ndf sku r)))
                           = "nan")
                   (rows ndf))).
Proof.
  intros -> Hcol Hrow. split; [| split; [reflexivity |]].
  - unfold get_unit_cost. rewrite Hrow. simpl.
    apply String.eqb_neq in Hcol. by rewrite Hcol.
  - intros cost_df sku cost ndf Hsku Hcost Hne.
    by apply cost_map_of_lookup.
Qed.

End RowFacts.

(** The empty SKU cell of an order picks up the cost 7 that the cost sheet
    gives in its row without a SKU; without a cost sheet it gets the
    fallback 50. *)
Lemma missing_sku_reads_nan_key_witness :
  get_unit_cost number_text (Some "sku")
    (cost_map no_text_number number_text (Some (Some cost_sheet_with_gap)))
    (rat 50 1) no_sku_row = rat 7 1
  ∧ get_unit_cost number_text (Some "sku") ∅ (rat 50 1) no_sku_row = rat 50 1.
Proof.
  split.
  - rewrite (proj1 (missing_sku_reads_nan_key no_text_number number_text
                      (Some "sku") _ (rat 50 1) no_sku_row "sku"
                      eq_refl ltac:(discriminate) eq_refl)).
    apply rat_eq. by vm_compute.
  - rewrite (proj1 (missing_sku_reads_nan_key no_text_number number_text
                      (Some "sku") _ (rat 50 1) no_sku_row "sku"
                      eq_refl ltac:(discriminate) eq_refl)).
    reflexivity.
Defined.

(** ** Payment aggregation *)

Section AggregationFacts.

Variable parse_num : string -> option Qc.
Variable str_num : Qc -> string.

Lemma sum_amounts_snoc (l : list Qc) (a : Qc) :
  sum_amounts (l ++ [a]) = (sum_amounts l + a)%Qc.
Proof.
  induction l as [|x l IH]; simpl.
  - by rewrite Qcplus_0_l, Qcplus_0_r.
  - by rewrite IH, Qcplus_assoc.
Qed.

Lemma amount_summary_snoc (payments : list Payment) (p : Payment) :
  amount_summary (payments ++ [p])
  = <[pay_id p :=
        (default 0 (amount_summary payments !! pay_id p) + pay_amount p)%Qc]>
      (amount_summary payments).
Proof. unfold amount_summary. by rewrite fold_left_app. Qed.

Lemma payments_of_snoc (oid : string) (payments : list Payment) (p : Payment) :
  payments_of oid (payments ++ [p])
  = payments_of oid payments ++ (if decide (pay_id p = oid) then [p] else []).
Proof.
  unfold payments_of. rewrite filter_app, filter_cons, filter_nil.
  by destruct (decide (pay_id p = oid)).
Qed.

(** [groupby.sum]: an order id that has rows gets the sum of their
    amounts, and an order id without rows gets no entry. *)
Lemma amount_summary_lookup (payments : list Payment) (oid : string) :
  amount_summary payments !! oid
  = match payments_of oid payments with
    | [] => None
    | l => Some (sum_amounts (map pay_amount l))
    end.
Proof.
  induction payments as [|p payments IH] using rev_ind; [done |].
  rewrite amount_summary_snoc, payments_of_snoc.
  destruct (decide (pay_id p = oid)) as [E | E].
  - rewrite E, lookup_insert_eq, IH.
    destruct (payments_of oid payments) as [|q l].
    + simpl. by rewrite Qcplus_0_l, Qcplus_0_r.
    + cbn [app from_option]. f_equal.
      change (q :: l ++ [p]) with ((q :: l) ++ [p]).
      rewrite map_app. change (map pay_amount [p]) with [pay_amount p].
      by rewrite sum_amounts_snoc.
  - rewrite lookup_insert_ne by done. by rewrite app_nil_r.
Qed.

Lemma payments_of_nil (oid : string) (payments : list Payment) :
  payments_of oid payments = [] ↔ oid ∉ map pay_id payments.
Proof.
  unfold payments_of. induction payments as [|p payments IH]; simpl.
  - split; [intros _; apply not_elem_of_nil | done].
  - rewrite filter_cons, not_elem_of_cons.
    destruct (decide (pay_id p = oid)) as [E | E].
    + split; [done | by intros [? _]].
    + rewrite IH. split; [by intros ? | by intros [_ ?]].
Qed.

Lemma status_summary_snoc (payments : list Payment) (p : Payment) :
  status_summary (payments ++ [p])
  = if notna (pay_status p)
    then <[pay_id p := pay_status p]> (status_summary payments)
    else status_summary payments.
Proof.
  unfold status_summary. rewrite filter_app, filter_cons, filter_nil.
  destruct (notna (pay_status p)) eqn:E.
  - rewrite decide_True by done. by rewrite fold_left_app.
  - rewrite decide_False by congruence. by rewrite app_nil_r.
Qed.

(** [drop_duplicates(keep='last')] after [dropna]: the last status that
    is not empty among the rows of the order id. *)
Lemma status_summary_lookup (payments : list Payment) (oid : string) :
  status_summary payments !! oid = last_status (payments_of oid payments).
Proof.
  unfold last_status.
  induction payments as [|p payments IH] using rev_ind; [done |].
  rewrite status_summary_snoc, payments_of_snoc, map_app, filter_app, last_app.
  destruct (decide (pay_id p = oid)) as [E | E]; simpl.
  - rewrite filter_cons, filter_nil.
    destruct (notna (pay_status p)) eqn:En.
    + rewrite decide_True by done. simpl. by rewrite E, lookup_insert_eq.
    + rewrite decide_False by congruence. by simpl.
  - destruct (notna (pay_status p)); [| done].
    by rewrite lookup_insert_ne.
Qed.

Lemma payment_summary_lookup (frames : list Frame) (oid : string) :
  payment_summary parse_num frames !! oid
  = (fun a =>
       (a, default CNull
             (if has_status_column frames
              then last_status (payments_of oid (all_payments parse_num frames))
              else None)))
    <$> amount_summary (all_payments parse_num frames) !! oid.
Proof.
  unfold payment_summary. destruct frames as [|f frames]; [done |].
  destruct (has_status_column (f :: frames)).
  - rewrite map_lookup_imap.
    destruct (amount_summary _ !! oid); simpl; [| done].
    by rewrite status_summary_lookup.
  - by rewrite lookup_fmap.
Qed.

(** Without a status column in any frame, every collected status is
    empty. *)
Lemma no_status_column (frames : list Frame) :
  has_status_column frames = false →
  Forall (fun p => pay_status p = CNull) (all_payments parse_num frames).
Proof.
  unfold has_status_column, all_payments. intros H.
  apply Forall_map. induction frames as [|f frames IH]; [done |].
  simpl in H. apply orb_false_iff in H as [Hf H].
  simpl. apply Forall_app. split; [| by apply IH].
  unfold concat_rows. rewrite Hf. by apply Forall_map, Forall_true.
Qed.

Lemma last_status_all_empty (payments : list Payment) :
  Forall (fun p => pay_status p = CNull) payments →
  last_status payments = None.
Proof.
  unfold last_status. intros H.
  induction H as [|p l Hp _ IH]; [done |].
  simpl. rewrite filter_cons, Hp. by rewrite decide_False.
Qed.

Lemma payments_of_Forall (P : Payment → Prop) (oid : string)
  (payments : list Payment) :
  Forall P payments → Forall P (payments_of oid payments).
Proof.
  unfold payments_of. rewrite !Forall_forall.
  intros H p [_ Hp]%list_elem_of_filter. by apply H.
Qed.

(** C1. For every order id, the aggregated settlement amount is the sum
    of the amounts (made numeric, 0 when not a number) of all collected
    payment rows with that order id, whatever file and sheet they come
    from; an order id without payment rows has no entry and its order gets
    the amount 0. Two payments of 120.50 and -15.00 for X1 give 105.50. *)
Theorem settlement_amount_is_sum (frames : list Frame) (oid : string) :
  let payments := all_payments parse_num frames in
  let total := sum_amounts (map pay_amount (payments_of oid payments)) in
  payments
  = map (fun r => {| pay_id := suborderno r;
                     pay_amount := default 0%Qc (to_numeric parse_num (amount r));
                     pay_status := payment_status r |})
      (concat (map concat_rows frames))
  ∧ fst <$> payment_summary parse_num frames !! oid
    = amount_summary payments !! oid
  ∧ amount_summary payments !! oid
    = (if bool_decide (oid ∈ map pay_id payments) then Some total else None)
  ∧ (∀ id_col orow,
       orow !! id_col = Some (CStr oid) →
       row_amount parse_num
         (merge_row str_num (payment_summary parse_num frames) id_col orow)
       = total)
  ∧ amount_summary (all_payments parse_num [x1_frame]) !! "X1"
    = Some (rat 10550 100)
  ∧ (payment_aggregator parse_num str_num [first_file; second_file]
     ≫= fun summary => fst <$> summary !! "X1") = Some (rat 10550 100).
Proof.
  intros payments total.
  assert (amount_summary payments !! oid
          = (if bool_decide (oid ∈ map pay_id payments)
             then Some total else None)) as Hsum.
  { rewrite amount_summary_lookup. unfold total.
    destruct (payments_of oid payments) as [|q l] eqn:E.
    - apply payments_of_nil in E. by rewrite bool_decide_eq_false_2.
    - rewrite bool_decide_eq_true_2; [done |].
      destruct (decide (oid ∈ map pay_id payments)) as [? | Hn]; [done |].
      apply payments_of_nil in Hn. congruence. }
  assert (fst <$> payment_summary parse_num frames !! oid
          = amount_summary payments !! oid) as Hfst.
  { rewrite payment_summary_lookup. fold payments.
    by destruct (amount_summary payments !! oid). }
  split; [done |]. split; [done |]. split; [done |]. split.
  - intros id_col orow Hid. unfold row_amount, merge_row.
    rewrite lookup_insert_ne by done. rewrite lookup_insert_eq.
    rewrite Hid. cbn [mbind option_bind cell_str from_option coerce0 to_numeric].
    rewrite Hfst, Hsum. case_bool_decide as Hin; [done |].
    apply payments_of_nil in Hin. unfold total. by rewrite Hin.
  - split.
    + rewrite amount_summary_lookup. f_equal. apply Qc_is_canon.
      by vm_compute.
    + assert (payment_frames str_num [first_file; second_file]
              = Some [ {| has_status := false;
                          frame_rows :=
                            [ {| suborderno := "X1";
                                 amount := CNum (rat 12050 100);
                                 payment_status := CNull |};
                              {| suborderno := "X2";
                                 amount := CNum (rat 30 1);
                                 payment_status := CNull |} ] |};
                       {| has_status := false;
                          frame_rows :=
                            [ {| suborderno := "X1";
                                 amount := CNum (rat (-15) 1);
                                 payment_status := CNull |};
                              {| suborderno := "X3";
                                 amount := CNum (rat 7 1);
                                 payment_status := CNull |} ] |} ]) as E
        by reflexivity.
      unfold payment_aggregator. rewrite E.
      cbn [fmap option_fmap option_map mbind option_bind].
      rewrite payment_summary_lookup.
      match goal with
      | |- context [amount_summary ?ps !! ?k] =>
          assert (amount_summary ps !! k = Some (rat 10550 100)) as ->
      end; [| reflexivity].
      rewrite amount_summary_lookup. f_equal. apply Qc_is_canon.
      by vm_compute.
Qed.

Lemma last_status_snoc (payments : list Payment) (p : Payment) :
  last_status (payments ++ [p])
  = if notna (pay_status p) then Some (pay_status p)
    else last_status payments.
Proof.
  unfold last_status. rewrite map_app, filter_app, last_app.
  cbn [map]. rewrite filter_cons, filter_nil.
  destruct (notna (pay_status p)) eqn:E.
  - by rewrite decide_True.
  - by rewrite decide_False by congruence.
Qed.

Lemma last_status_none (payments : list Payment) :
  last_status payments = None ↔
  Forall (fun p => pay_status p = CNull) payments.
Proof.
  split; [| apply last_status_all_empty].
  induction payments as [|p payments IH] using rev_ind; [done |].
  rewrite last_status_snoc. destruct (notna (pay_status p)) eqn:E; [done |].
  intros H. apply Forall_app. split; [by apply IH |].
  apply Forall_singleton. by destruct (pay_status p).
Qed.

(** The last status is that of a row after which every status is empty. *)
Lemma last_status_some (payments : list Payment) (c : Cell) :
  last_status payments = Some c ↔
  c ≠ CNull
  ∧ ∃ before p after,
      payments = before ++ p :: after
      ∧ pay_status p = c
      ∧ Forall (fun q => pay_status q = CNull) after.
Proof.
  split.
  - induction payments as [|p payments IH] using rev_ind; [done |].
    rewrite last_status_snoc. destruct (notna (pay_status p)) eqn:E.
    + intros [= <-]. split; [by destruct (pay_status p) |].
      by exists payments, p, [].
    + intros H. destruct (IH H) as [Hc [before [q [after [-> [Hq Ha]]]]]].
      split; [done |]. exists before, q, (after ++ [p]).
      rewrite <-app_assoc. split; [done |]. split; [done |].
      apply Forall_app. split; [done |].
      apply Forall_singleton. by destruct (pay_status p).
  - intros [Hc [before [p [after [-> [Hp Ha]]]]]].
    induction after as [|q after IH] using rev_ind.
    + rewrite last_status_snoc, Hp. by destruct c.
    + apply Forall_app in Ha as [Ha Hq].
      apply (proj1 (Forall_singleton _ q)) in Hq.
      change (before ++ p :: after ++ [q])
        with (before ++ (p :: after) ++ [q]).
      rewrite (assoc_L (++)), last_status_snoc, Hq. by apply IH.
Qed.

Lemma all_payments_app (frames frames' : list Frame) :
  all_payments parse_num (frames ++ frames')
  = all_payments parse_num frames ++ all_payments parse_num frames'.
Proof. unfold all_payments. by rewrite map_app, concat_app, map_app. Qed.

(** C8. The payment summary gives each order id that has payment rows its
    summed amount together with the last status that is not empty among
    its collected rows, in the order in which the rows were collected, so
    that rows of later sheets and files replace those of earlier ones; an
    order id whose rows all have an empty status gets an empty status. A
    row that carries a status comes from a frame with a status column, so
    the status summary is then the one merged onto the amounts. *)
Theorem payment_status_is_last (frames : list Frame) (oid : string) :
  let payments := all_payments parse_num frames in
  let mine := payments_of oid payments in
  payment_summary parse_num frames !! oid
  = (fun a => (a, default CNull (last_status mine)))
    <$> amount_summary payments !! oid
  ∧ (∀ c, last_status mine = Some c ↔
          c ≠ CNull
          ∧ ∃ before p after,
              mine = before ++ p :: after
              ∧ pay_status p = c
              ∧ Forall (fun q => pay_status q = CNull) after)
  ∧ (last_status mine = None ↔ Forall (fun p => pay_status p = CNull) mine)
  ∧ (∀ frames', all_payments parse_num (frames ++ frames')
                = payments ++ all_payments parse_num frames')
  ∧ ((∃ p, p ∈ payments ∧ pay_status p ≠ CNull) →
     has_status_column frames = true)
  ∧ snd <$> payment_summary parse_num [y_frame] !! "Y1"
    = Some (CStr "Delivered")
  ∧ snd <$> payment_summary parse_num [y_frame] !! "Y2" = Some CNull.
Proof.
  intros payments mine.
  assert ((∃ p, p ∈ payments ∧ pay_status p ≠ CNull) →
          has_status_column frames = true) as Hcol.
  { intros [p [Hp Hs]]. destruct (has_status_column frames) eqn:E; [done |].
    pose proof (no_status_column frames E) as Hall.
    rewrite Forall_forall in Hall. by specialize (Hall p Hp). }
  split; [| split; [| split; [| split; [| split; [| split]]]]].
  - rewrite payment_summary_lookup. fold payments. fold mine.
    destruct (has_status_column frames) eqn:E; [done |].
    rewrite (last_status_all_empty mine); [done |].
    apply payments_of_Forall. by apply no_status_column.
  - intros c. apply last_status_some.
  - apply last_status_none.
  - intros frames'. apply all_payments_app.
  - exact Hcol.
  - rewrite payment_summary_lookup, amount_summary_lookup. reflexivity.
  - rewrite payment_summary_lookup, amount_summary_lookup. reflexivity.
Qed.

End AggregationFacts.

(** ** Payment files *)

Section PaymentFileFacts.

Variable parse_num : string -> option Qc.
Variable str_num : Qc -> string.

(** A label that contains [suborder] before underscores and periods are
    removed contains it afterwards. *)
Lemma temp_col_normalized (c : string) :
  Py.contains "suborder" (Py.remove_char space (Py.lower c)) = true →
  Py.contains "suborder" (normalize_name c) = true.
Proof.
  intros H. unfold normalize_name.
  by do 2 (apply contains_remove_char; [reflexivity |]).
Qed.

(** The test of the header fix: when no normalised label contains
    [suborder], the text of the list of labels does not either. *)
Lemma header_test_sound (df : DataFrame) :
  (∀ c, c ∈ columns (normalize_columns df) → Py.contains "suborder" c = false) →
  Py.contains "suborder" (Py.str_list (temp_cols df)) = false.
Proof.
  intros Hno. apply not_true_iff_false. intros H.
  apply contains_str_list in H as [x [Hx Hc]]; [| reflexivity].
  unfold temp_cols in Hx. apply list_elem_of_In, in_map_iff in Hx.
  destruct Hx as [c [<- Hin]]. apply temp_col_normalized in Hc.
  rewrite Hno in Hc; [done |].
  cbn [normalize_columns columns]. apply list_elem_of_In, in_map. done.
Qed.

(** C6, as the code has it. For a sheet with more than 2 data rows (at
    least 3) whose normalised labels contain no [suborder], the sheet is
    read exactly once more, with the second row as header, before the
    columns are resolved on the table so obtained (the first table if the
    second read fails); when that table has no order id column or no
    amount column, the sheet is skipped. *)
Theorem header_fix_once (sh : Sheet) (df : DataFrame) :
  read_header0 sh = Some df →
  3 ≤ len df →
  (∀ c, c ∈ columns (normalize_columns df) → Py.contains "suborder" c = false) →
  let df' := default df (read_header1 sh) in
  snd (process_sheet str_num sh) = [ReadHeader0; ReadHeader1]
  ∧ fst (process_sheet str_num sh) = collect str_num (normalize_columns df')
  ∧ (find_column (normalize_columns df') ["suborder"] = None
     ∨ find_column (normalize_columns df')
         ["finalsettlement"; "settlementamount"; "netamount"] = None
     → fst (process_sheet str_num sh) = Skipped).
Proof.
  intros H0 Hlen Hno df'.
  assert (process_sheet str_num sh
          = (collect str_num (normalize_columns df'),
             [ReadHeader0; ReadHeader1])) as E.
  { unfold process_sheet. rewrite H0.
    destruct (Nat.ltb_spec (len df) 2) as [? | _]; [lia |].
    unfold header_fix, needs_header_fix.
    rewrite (header_test_sound df Hno).
    destruct (Nat.ltb_spec 2 (len df)) as [_ | ?]; [| lia].
    cbn [negb andb]. unfold df'. by destruct (read_header1 sh). }
  rewrite E. split; [done |]. split; [done |].
  cbn [fst]. unfold collect. intros [-> | ->]; [done |].
  by destruct (find_column _ ["suborder"]).
Qed.

Lemma process_files_app (before after : list Workbook) (frames : list Frame) :
  process_files str_num (before ++ after) frames
  = process_files str_num before frames ≫= process_files str_num after.
Proof.
  revert frames. induction before as [|f before IH]; intros frames; [done |].
  cbn [app process_files].
  destruct (process_file str_num f frames); [apply IH | done].
Qed.

(** Two files that do the same to every list of frames can replace each
    other in any list of files. *)
Lemma process_files_replace (before after : list Workbook) (f g : Workbook) :
  (∀ frames, process_file str_num f frames = process_file str_num g frames) →
  payment_frames str_num (before ++ f :: after)
  = payment_frames str_num (before ++ g :: after).
Proof.
  intros H. unfold payment_frames. rewrite !process_files_app.
  destruct (process_files str_num before []) as [frames|]; [| done].
  cbn [mbind option_bind process_files]. by rewrite H.
Qed.

Lemma process_sheets_skip (s1 s2 : list Sheet) (sh : Sheet)
  (frames : list Frame) :
  fst (process_sheet str_num sh) = Skipped →
  process_sheets str_num (s1 ++ sh :: s2) frames
  = process_sheets str_num (s1 ++ s2) frames.
Proof.
  intros Hsh. revert frames.
  induction s1 as [|x s1 IH]; intros frames; cbn [app process_sheets].
  - by rewrite Hsh.
  - by destruct (fst (process_sheet str_num x)).
Qed.

Lemma process_sheets_raise (s1 s2 : list Sheet) (sh : Sheet)
  (frames : list Frame) :
  fst (process_sheet str_num sh) = Raised →
  process_sheets str_num (s1 ++ sh :: s2) frames
  = process_sheets str_num s1 frames.
Proof.
  intros Hsh. revert frames.
  induction s1 as [|x s1 IH]; intros frames; cbn [app process_sheets].
  - by rewrite Hsh.
  - by destruct (fst (process_sheet str_num x)).
Qed.

(** C5, as the code has it. A sheet that is skipped (fewer than 2 data
    rows, or no order id column or no amount column after the header fix)
    leaves the result of the aggregation as if it were absent. A sheet
    that raises, as one that cannot be parsed does, reaches the handler
    of its file: the frames collected before it, in its file and in the
    other files, are kept, and the sheets after it in the same file are
    not read. A file that cannot be opened is as if it were absent. *)
Theorem sheet_isolation (before after : list Workbook) (s1 s2 : list Sheet)
  (sh : Sheet) :
  (fst (process_sheet str_num sh) = Skipped →
   payment_aggregator parse_num str_num (before ++ Some (s1 ++ sh :: s2) :: after)
   = payment_aggregator parse_num str_num (before ++ Some (s1 ++ s2) :: after))
  ∧ (fst (process_sheet str_num sh) = Raised →
     payment_aggregator parse_num str_num
       (before ++ Some (s1 ++ sh :: s2) :: after)
     = payment_aggregator parse_num str_num (before ++ Some s1 :: after))
  ∧ payment_aggregator parse_num str_num (before ++ None :: after)
    = payment_aggregator parse_num str_num (before ++ after)
  ∧ (read_header0 sh = None → fst (process_sheet str_num sh) = Raised)
  ∧ (∀ df, read_header0 sh = Some df → len df < 2 →
           fst (process_sheet str_num sh) = Skipped)
  ∧ (∀ df, read_header0 sh = Some df → 2 ≤ len df →
           let df' := normalize_columns (fst (header_fix sh df)) in
           find_column df' ["suborder"] = None
           ∨ find_column df'
               ["finalsettlement"; "settlementamount"; "netamount"] = None →
           fst (process_sheet str_num sh) = Skipped).
Proof.
  unfold payment_aggregator.
  split; [| split; [| split; [| split; [| split]]]].
  - intros H. f_equal. apply process_files_replace. intros frames.
    by apply process_sheets_skip.
  - intros H. f_equal. apply process_files_replace. intros frames.
    by apply process_sheets_raise.
  - f_equal. unfold payment_frames. rewrite !process_files_app.
    by destruct (process_files str_num before []).
  - intros H. unfold process_sheet. by rewrite H.
  - intros df H Hlen. unfold process_sheet. rewrite H.
    by destruct (Nat.ltb_spec (len df) 2) as [_ | ?]; [| lia].
  - intros df H Hlen Hcol. unfold process_sheet. rewrite H.
    destruct (Nat.ltb_spec (len df) 2) as [? | _]; [lia |].
    destruct (header_fix sh df) as [d reads]. cbn [fst] in *.
    unfold collect. destruct Hcol as [-> | ->]; [done |].
    by destruct (find_column _ ["suborder"]).
Qed.

End PaymentFileFacts.

(** A sheet with three data rows under a title row is read again and
    its two payments are kept. *)
Lemma header_fix_once_witness :
  snd (process_sheet number_text three_row_sheet) = [ReadHeader0; ReadHeader1]
  ∧ fst (process_sheet number_text three_row_sheet)
    = collect number_text (normalize_columns three_row_reread).
Proof.
  assert (∀ c, c ∈ columns (normalize_columns three_row_table) →
               Py.contains "suborder" c = false) as Hno.
  { intros c Hc. cbn in Hc.
    apply elem_of_cons in Hc as [-> | Hc]; [reflexivity |].
    apply elem_of_cons in Hc as [-> | Hc]; [reflexivity |].
    by apply elem_of_nil in Hc. }
  destruct (header_fix_once number_text three_row_sheet three_row_table
              eq_refl ltac:(cbn; lia) Hno) as [H1 [H2 _]].
  split; [exact H1 | exact H2].
Defined.

(** C6 as stated fails for a sheet with exactly two data rows: the labels
    of the first reading contain no [suborder], the second reading would
    give the two columns, and yet the sheet is read once only and
    skipped. *)
Lemma two_row_sheet_not_reread :
  ¬ (∀ df,
       read_header0 two_row_sheet = Some df →
       2 ≤ len df →
       (∀ c, c ∈ columns (normalize_columns df) →
             Py.contains "suborder" c = false) →
       snd (process_sheet number_text two_row_sheet)
       = [ReadHeader0; ReadHeader1]).
Proof.
  intros H. specialize (H two_row_table eq_refl ltac:(cbn; lia)).
  assert (snd (process_sheet number_text two_row_sheet) = [ReadHeader0]) as E
    by reflexivity.
  rewrite E in H. discriminate H.
  intros c Hc. cbn in Hc.
  apply elem_of_cons in Hc as [-> | Hc]; [reflexivity |].
  apply elem_of_cons in Hc as [-> | Hc]; [reflexivity |].
  by apply elem_of_nil in Hc.
Qed.

Example two_row_sheet_outcome :
  process_sheet number_text two_row_sheet = (Skipped, [ReadHeader0])
  ∧ collect number_text (normalize_columns two_row_reread)
    = Kept {| has_status := false;
              frame_rows := [ {| suborderno := "A1";
                                 amount := CNum (rat 100 1);
                                 payment_status := CNull |} ] |}.
Proof. split; reflexivity. Qed.

(** C5 as stated fails for a sheet that cannot be parsed: the sheet after
    it in the same file, with the two payments of X1, is not read, so
    the aggregation is empty, whereas without the unreadable sheet X1
    has the amount 105.50. *)
Lemma unreadable_sheet_hides_later_sheets :
  read_header0 unreadable_sheet = None
  ∧ payment_aggregator no_text_number number_text
      [Some [unreadable_sheet; x1_sheet]] = Some ∅
  ∧ (payment_aggregator no_text_number number_text [Some [x1_sheet]]
     ≫= fun summary => fst <$> summary !! "X1") = Some (rat 10550 100)
  ∧ payment_aggregator no_text_number number_text
      [Some [unreadable_sheet; x1_sheet]]
    ≠ payment_aggregator no_text_number number_text [Some [x1_sheet]].
Proof.
  assert ((payment_aggregator no_text_number number_text [Some [x1_sheet]]
           ≫= fun summary => fst <$> summary !! "X1") = Some (rat 10550 100))
    as Hx1.
  { assert (payment_frames number_text [Some [x1_sheet]]
            = Some [ {| has_status := false;
                        frame_rows :=
                          [ {| suborderno := "X1";
                               amount := CNum (rat 12050 100);
                               payment_status := CNull |};
                            {| suborderno := "X1";
                               amount := CNum (rat (-15) 1);
                               payment_status := CNull |} ] |} ]) as E
      by reflexivity.
    unfold payment_aggregator. rewrite E.
    cbn [fmap option_fmap option_map mbind option_bind].
    rewrite payment_summary_lookup.
    match goal with
    | |- context [amount_summary ?ps !! ?k] =>
        assert (amount_summary ps !! k = Some (rat 10550 100)) as ->
    end; [| reflexivity].
    rewrite amount_summary_lookup. f_equal. apply Qc_is_canon.
    by vm_compute. }
  split; [reflexivity |]. split; [reflexivity |]. split; [exact Hx1 |].
  intros H. rewrite <-H in Hx1. discriminate Hx1.
Qed.

(** A sheet without an order id column changes nothing, and an unreadable
    sheet at the end of a file loses nothing. *)
Lemma sheet_isolation_witness :
  payment_aggregator no_text_number number_text
    [Some [summary_sheet; x1_sheet]]
  = payment_aggregator no_text_number number_text [Some [x1_sheet]]
  ∧ payment_aggregator no_text_number number_text
      [Some [x1_sheet; unreadable_sheet]]
    = payment_aggregator no_text_number number_text [Some [x1_sheet]].
Proof.
  split.
  - exact (proj1 (sheet_isolation no_text_number number_text [] [] []
                    [x1_sheet] summary_sheet) eq_refl).
  - exact (proj1 (proj2 (sheet_isolation no_text_number number_text [] []
                           [x1_sheet] [] unreadable_sheet)) eq_refl).
Defined.

(** ** Closed instances *)

(** The order X1 of [x1_frame], in an order table whose id column is
    [suborderno], gets the amount 105.50. *)
Lemma settlement_amount_is_sum_witness :
  row_amount no_text_number
    (merge_row number_text (payment_summary no_text_number [x1_frame])
       "suborderno" (<["suborderno" := CStr "X1"]> ∅))
  = rat 10550 100.
Proof.
  rewrite (proj1 (proj2 (proj2 (proj2
             (settlement_amount_is_sum no_text_number number_text
                [x1_frame] "X1")))) "suborderno"
             (<["suborderno" := CStr "X1"]> ∅)
             (lookup_insert_eq _ _ _)).
  apply Qc_is_canon. by vm_compute.
Defined.

(** Payment status Return wins over order status Delivered. *)
Lemma final_status_precedence_witness :
  get_final_status number_text (Some "orderstatus") return_row = "return".
Proof.
  rewrite (proj1 (final_status_precedence no_text_number number_text
                    (Some "orderstatus") return_row fifty_five None
                    {| columns := []; rows := [] |} [])
             (CStr "Return") (lookup_insert_eq _ _ _)
             ltac:(discriminate)).
  reflexivity.
Defined.

(** The status [customer return initiated] charges the cost once. *)
Lemma product_cost_all_or_nothing_witness :
  product_cost
    (reconcile_row no_text_number number_text fifty_five ∅ None None
       (<["payment_status" := CStr "Customer Return Initiated"]>
          two_items_row))
  = rat 100 1.
Proof.
  rewrite (proj1 (proj2 (product_cost_all_or_nothing no_text_number
                           number_text fifty_five ∅ None None
                           (<["payment_status" :=
                                CStr "Customer Return Initiated"]>
                              two_items_row)))).
  - apply Qc_is_canon. by vm_compute.
  - exists "return". split; [| reflexivity].
    do 2 apply list_elem_of_further. apply list_elem_of_here.
Defined.

(** In [y_frame] the order Y1 ends with the status Delivered: the later
    row without a status does not replace it. *)
Lemma payment_status_is_last_witness :
  last_status (payments_of "Y1" (all_payments no_text_number [y_frame]))
  = Some (CStr "Delivered")
  ∧ has_status_column [y_frame] = true.
Proof.
  split.
  - apply (proj1 (proj2 (payment_status_is_last no_text_number [y_frame]
                           "Y1"))).
    split; [discriminate |].
    exists [ {| pay_id := "Y1"; pay_amount := rat 10 1;
                pay_status := CStr "Shipped" |} ],
           {| pay_id := "Y1"; pay_amount := rat 5 1;
              pay_status := CStr "Delivered" |},
           [ {| pay_id := "Y1"; pay_amount := rat 1 1;
                pay_status := CNull |} ].
    split; [reflexivity |]. split; [reflexivity |].
    by apply Forall_singleton.
  - apply (proj1 (proj2 (proj2 (proj2 (proj2
             (payment_status_is_last no_text_number [y_frame] "Y1")))))).
    exists {| pay_id := "Y1"; pay_amount := rat 10 1;
              pay_status := CStr "Shipped" |}.
    split; [apply list_elem_of_here | discriminate].
Defined.

(** The scenario of the specification, end to end: A1 has product cost 80
    and net profit 215; A2 is not charged, has amount 0 and net profit
    -5. *)
Example end_to_end_scenario :
  match final_df no_text_number number_text scenario_config
          (Some (Some scenario_costs)) scenario_orders scenario_payments with
  | Done records =>
      map (figures no_text_number) records
      = [ ("delivered", 300, 40, 80, 215)%Q;
          ("cancelled", 0, 20, 0, -5)%Q ]
  | _ => False
  end.
Proof. by vm_compute. Qed.

(** * Further properties of the code *)

(** ** Metrics *)

Section MetricsFacts.

Variable parse_num : string -> option Qc.
Variable str_num : Qc -> string.

(** The records of a completed run are the rows of the order table,
    merged and reconciled one by one. *)
Lemma final_df_records (cfg : Config)
  (uploaded_cost_sheet : option (option DataFrame)) (orders_df : DataFrame)
  (uploaded_payments : list Workbook) (records : list Reconciled) :
  final_df parse_num str_num cfg uploaded_cost_sheet orders_df
    uploaded_payments = Done records →
  ∃ costs status_col sku_col merged,
    records
    = map (reconcile_row parse_num str_num cfg costs status_col sku_col) merged
    ∧ length merged = len orders_df.
Proof.
  unfold final_df, process_orders.
  destruct (find_column _ ["suborder"; "orderid"]) as [c|]; [| done].
  destruct (Py.truthy (Some c)); [| done].
  destruct (payment_frames _ _) as [frames|]; [| done].
  cbn [order_labels order_rows order_status_col order_sku_col order_id_col].
  case_bool_decide; [done |]. intros [= <-].
  exists (cost_map parse_num str_num uploaded_cost_sheet),
    (find_column (normalize_columns orders_df) ["orderstatus"; "status"]),
    (find_column (normalize_columns orders_df) ["sku"; "style"; "productid"]),
    (map (merge_row str_num (payment_summary parse_num frames) c)
       (map (fun r => alter (fun x => CStr (cell_str str_num x)) c
                        (row_of (normalize_columns orders_df) r))
          (rows orders_df))).
  split; [by rewrite !map_map | by rewrite !length_map].
Qed.

Lemma sum_amounts_cons (a : Qc) (l : list Qc) :
  sum_amounts (a :: l) = (a + sum_amounts l)%Qc.
Proof. reflexivity. Qed.

Lemma Qc_of_nat_S (n : nat) :
  Qc_of_Z (Z.of_nat (S n)) = (1 + Qc_of_Z (Z.of_nat n))%Qc.
Proof.
  rewrite Nat2Z.inj_succ, <-Z.add_1_l, Z2Qc_inj_add. by rewrite Z2Qc_inj_1.
Qed.

Lemma sum_net_profit (cfg : Config) (costs : gmap string Qc)
  (status_col sku_col : option string) (merged : list (gmap string Cell)) :
  let records :=
    map (reconcile_row parse_num str_num cfg costs status_col sku_col) merged in
  sum_amounts (map net_profit records)
  = (sum_amounts (map (fun r => row_amount parse_num (rec_row r)) records)
     - sum_amounts (map product_cost records)
     - Qc_of_Z (Z.of_nat (length records)) * packaging_cost cfg)%Qc.
Proof.
  induction merged as [|row merged IH]; cbn zeta.
  - cbn [map length]. change (Z.of_nat 0) with 0%Z. rewrite Z2Qc_inj_0.
    unfold sum_amounts. cbn [foldr]. ring.
  - rewrite !map_cons, !sum_amounts_cons. cbn [length]. rewrite Qc_of_nat_S.
    cbn zeta in IH. rewrite IH.
    cbn [reconcile_row net_profit rec_row product_cost]. ring.
Qed.

(** X1. For every run that completes, the total profit shown is the total
    settlement minus the total product cost minus the packaging cost
    once per order; the number of orders is the number of rows of the
    order table, and with at least one order the average times the number
    of orders is the total profit. *)
Theorem total_profit_decomposition (cfg : Config)
  (uploaded_cost_sheet : option (option DataFrame)) (orders_df : DataFrame)
  (uploaded_payments : list Workbook) (records : list Reconciled) :
  final_df parse_num str_num cfg uploaded_cost_sheet orders_df
    uploaded_payments = Done records →
  let m := metrics parse_num records in
  total_profit m
  = (payout_settled m - total_product_cost m
     - Qc_of_Z (Z.of_nat (total_orders m)) * packaging_cost cfg)%Qc
  ∧ total_orders m = len orders_df
  ∧ (total_orders m ≠ 0 →
     (average_profit m * Qc_of_Z (Z.of_nat (total_orders m)))%Qc
     = total_profit m).
Proof.
  intros H m.
  destruct (final_df_records _ _ _ _ _ H)
    as [costs [status_col [sku_col [merged [-> Hlen]]]]].
  split; [apply sum_net_profit |]. split.
  - subst m. cbn [metrics total_orders]. by rewrite length_map.
  - subst m. cbn [metrics total_orders average_profit total_profit].
    intros Hn. destruct (Nat.eqb_spec (length (map
      (reconcile_row parse_num str_num cfg costs status_col sku_col) merged)) 0)
      as [E | E]; [done |].
    unfold Qcdiv. rewrite <-Qcmult_assoc, (Qcmult_comm (/ _)).
    rewrite Qcmult_inv_r; [by rewrite Qcmult_1_r |].
    rewrite <-Z2Qc_inj_0. intros Hz%Z2Qc_inj. lia.
Qed.

Lemma count_status_final_mono (records : list Reconciled)
  (keywords keywords' : list string) :
  (∀ s, Py.any_in keywords s = true → Py.any_in keywords' s = true) →
  count_status_final records keywords ≤ count_status_final records keywords'.
Proof.
  intros H. unfold count_status_final.
  induction records as [|r records IH]; [done |].
  rewrite !filter_cons.
  destruct (decide (Py.any_in keywords (final_status r) = true)) as [E | E].
  - rewrite decide_True by by apply H. simpl. lia.
  - destruct (decide (Py.any_in keywords' (final_status r) = true));
      simpl; lia.
Qed.

Lemma any_in_singleton (k s : string) :
  Py.any_in [k] s = Py.contains k s.
Proof. unfold Py.any_in. cbn [existsb]. apply orb_false_r. Qed.

(** X2. A status that contains [undelivered] contains [delivered]: every
    row counted under RTO because of [undelivered] is also counted under
    Delivered, and it is charged the product cost. *)
Theorem undelivered_is_delivered (records : list Reconciled) (cfg : Config)
  (costs : gmap string Qc) (status_col sku_col : option string)
  (row : gmap string Cell) :
  (∀ s, Py.contains "undelivered" s = true → Py.contains "delivered" s = true)
  ∧ count_status_final records ["undelivered"]
    ≤ delivered (metrics parse_num records)
  ∧ count_status_final records ["undelivered"]
    ≤ rtos (metrics parse_num records)
  ∧ (let r := reconcile_row parse_num str_num cfg costs status_col sku_col row in
     Py.contains "undelivered" (final_status r) = true →
     product_cost r = (unit_cost r * quantity parse_num row)%Qc).
Proof.
  assert (∀ s, Py.contains "undelivered" s = true
               → Py.contains "delivered" s = true) as Hsub.
  { intros s. apply (contains_suffix_of_keyword "un" "delivered"). }
  split; [done |]. split; [| split].
  - apply count_status_final_mono. intros s.
    rewrite !any_in_singleton. apply Hsub.
  - apply count_status_final_mono. intros s.
    rewrite any_in_singleton. intros Hs. apply any_in_spec.
    exists "undelivered". split; [| done].
    apply list_elem_of_further, list_elem_of_here.
  - intros r Hs. subst r.
    cbn [reconcile_row product_cost unit_cost final_status] in *.
    unfold calculate_total_cost.
    assert (Py.any_in valid_cost_statuses
              (get_final_status str_num status_col row) = true) as ->; [| done].
    apply any_in_spec. exists "delivered".
    split; [apply list_elem_of_here | by apply Hsub].
Qed.

(** X3. The keyword [customerreturn] of the Returned count never adds a
    row: the count is the number of rows whose status contains [return];
    each of these rows is charged the product cost, and no count exceeds
    the number of orders. *)
Theorem returned_count_is_return (records : list Reconciled) :
  let m := metrics parse_num records in
  returned m = count_status_final records ["return"]
  ∧ Forall (fun r =>
              Py.contains "return" (final_status r) = true →
              Py.any_in valid_cost_statuses (final_status r) = true)
      records
  ∧ delivered m ≤ total_orders m
  ∧ returned m ≤ total_orders m
  ∧ rtos m ≤ total_orders m
  ∧ cancelled m ≤ total_orders m.
Proof.
  intros m. split; [| split].
  - apply Nat.le_antisymm; apply count_status_final_mono; intros s Hs.
    + apply any_in_spec in Hs as [k [Hk Hc]]. rewrite any_in_singleton.
      apply elem_of_cons in Hk as [-> | Hk]; [done |].
      apply elem_of_cons in Hk as [-> | Hk]; [| by apply elem_of_nil in Hk].
      by apply (contains_suffix_of_keyword "customer" "return").
    + rewrite any_in_singleton in Hs. apply any_in_spec.
      exists "return". split; [apply list_elem_of_here | done].
  - apply Forall_forall. intros r _ Hs. apply any_in_spec.
    exists "return". split; [| done].
    do 2 apply list_elem_of_further. apply list_elem_of_here.
  - repeat split; apply length_filter.
Qed.

End MetricsFacts.

(** In the scenario of the specification the two orders give the total
    profit 210 = 300 - 80 - 2 * 5. *)
Lemma total_profit_decomposition_witness :
  ∃ records,
    final_df no_text_number number_text scenario_config
      (Some (Some scenario_costs)) scenario_orders scenario_payments
    = Done records
    ∧ total_profit (metrics no_text_number records)
      = (payout_settled (metrics no_text_number records)
         - total_product_cost (metrics no_text_number records)
         - Qc_of_Z (Z.of_nat (total_orders (metrics no_text_number records)))
           * rat 5 1)%Qc
    ∧ total_orders (metrics no_text_number records) = 2.
Proof.
  eexists. split; [reflexivity |].
  match goal with
  | |- context [metrics _ ?rs] =>
      destruct (total_profit_decomposition no_text_number number_text
                  scenario_config (Some (Some scenario_costs)) scenario_orders
                  scenario_payments rs eq_refl) as [H1 [H2 _]]
  end.
  split; [exact H1 | exact H2].
Defined.

(** ** Normalised labels *)

Lemma lower_char_idem (c : Ascii.ascii) :
  Py.lower_char (Py.lower_char c) = Py.lower_char c.
Proof. destruct c as [[] [] [] [] [] [] [] []]; reflexivity. Qed.

Lemma lower_idem (s : string) : Py.lower (Py.lower s) = Py.lower s.
Proof.
  induction s as [|c s IH]; [done |]. cbn [Py.lower].
  by rewrite lower_char_idem, IH.
Qed.

(** Lower-casing neither makes nor unmakes a space, an underscore or a
    period. *)
Lemma lower_char_separator (c : Ascii.ascii) :
  Ascii.eqb (Py.lower_char c) space = Ascii.eqb c space
  ∧ Ascii.eqb (Py.lower_char c) underscore = Ascii.eqb c underscore
  ∧ Ascii.eqb (Py.lower_char c) period = Ascii.eqb c period.
Proof. destruct c as [[] [] [] [] [] [] [] []]; repeat split. Qed.

Lemma lower_remove_char (d : Ascii.ascii) (s : string) :
  (∀ c, Ascii.eqb (Py.lower_char c) d = Ascii.eqb c d) →
  Py.lower (Py.remove_char d s) = Py.remove_char d (Py.lower s).
Proof.
  intros Hd. induction s as [|c s IH]; [done |].
  cbn [Py.remove_char Py.lower]. rewrite Hd.
  destruct (Ascii.eqb c d); [done |]. cbn [Py.lower]. by rewrite IH.
Qed.

Lemma remove_char_comm (c d : Ascii.ascii) (s : string) :
  Py.remove_char c (Py.remove_char d s) = Py.remove_char d (Py.remove_char c s).
Proof.
  induction s as [|a s IH]; [done |]. cbn [Py.remove_char].
  destruct (Ascii.eqb a d) eqn:Ed, (Ascii.eqb a c) eqn:Ec;
    cbn [Py.remove_char]; rewrite ?Ed, ?Ec; by rewrite ?IH.
Qed.

Lemma remove_char_idem (c : Ascii.ascii) (s : string) :
  Py.remove_char c (Py.remove_char c s) = Py.remove_char c s.
Proof.
  induction s as [|a s IH]; [done |]. cbn [Py.remove_char].
  destruct (Ascii.eqb a c) eqn:E; [done |].
  cbn [Py.remove_char]. by rewrite E, IH.
Qed.

Lemma has_char_cons (c a : Ascii.ascii) (s : string) :
  Py.has_char c (String a s) = Ascii.eqb c a || Py.has_char c s.
Proof. unfold Py.has_char. cbn [Py.contains Py.starts_with]. by rewrite andb_true_r. Qed.

Lemma has_char_remove_same (c : Ascii.ascii) (s : string) :
  Py.has_char c (Py.remove_char c s) = false.
Proof.
  induction s as [|a s IH]; [done |]. cbn [Py.remove_char].
  destruct (Ascii.eqb a c) eqn:E; [done |].
  by rewrite has_char_cons, Ascii.eqb_sym, E, IH.
Qed.

Lemma has_char_remove_other (c d : Ascii.ascii) (s : string) :
  Py.has_char c s = false → Py.has_char c (Py.remove_char d s) = false.
Proof.
  induction s as [|a s IH]; [done |]. rewrite has_char_cons.
  intros [Ha Hs]%orb_false_iff. cbn [Py.remove_char].
  destruct (Ascii.eqb a d); [by apply IH |].
  rewrite has_char_cons, Ha. by apply IH.
Qed.

Lemma normalize_name_idem (s : string) :
  normalize_name (normalize_name s) = normalize_name s.
Proof.
  unfold normalize_name.
  rewrite !lower_remove_char by (intros c; apply lower_char_separator).
  rewrite lower_idem.
  set (y := Py.lower s).
  rewrite (remove_char_comm space period), (remove_char_comm space underscore).
  rewrite remove_char_idem.
  rewrite (remove_char_comm underscore period), remove_char_idem.
  by rewrite remove_char_idem.
Qed.

(** X4. Normalising the labels a second time changes nothing, and a
    normalised label is lower case and has no space, underscore or
    period; so a column is resolved the same way however often the table
    was normalised. *)
Theorem normalize_columns_idempotent (df : DataFrame)
  (keywords : list string) :
  normalize_columns (normalize_columns df) = normalize_columns df
  ∧ Forall (fun c =>
              Py.lower c = c
              ∧ Py.has_char space c = false
              ∧ Py.has_char underscore c = false
              ∧ Py.has_char period c = false)
      (columns (normalize_columns df))
  ∧ find_column (normalize_columns (normalize_columns df)) keywords
    = find_column (normalize_columns df) keywords.
Proof.
  assert (normalize_columns (normalize_columns df) = normalize_columns df) as E.
  { unfold normalize_columns. cbn [columns rows]. f_equal.
    rewrite map_map. apply map_ext. intros c. apply normalize_name_idem. }
  split; [done |]. split; [| by rewrite E].
  cbn [normalize_columns columns]. apply Forall_map, Forall_true.
  intros c. unfold normalize_name. repeat split.
  - rewrite !lower_remove_char by (intros a; apply lower_char_separator).
    by rewrite lower_idem.
  - do 2 apply has_char_remove_other. apply has_char_remove_same.
  - apply has_char_remove_other, has_char_remove_same.
  - apply has_char_remove_same.
Qed.

(** ** Column resolver, continued *)

Lemma any_in_same_keywords (keywords keywords' : list string) (s : string) :
  (∀ k, k ∈ keywords ↔ k ∈ keywords') →
  Py.any_in keywords s = Py.any_in keywords' s.
Proof.
  intros H. apply eq_true_iff_eq. rewrite !any_in_spec.
  split; intros [k [Hk Hc]]; exists k; split; try done; by apply H.
Qed.

(** X5. The order of the keywords plays no part: two keyword lists with
    the same members resolve the same column, the first one in the order
    of the columns that contains any of them. *)
Theorem find_column_keyword_order (df : DataFrame)
  (keywords keywords' : list string) :
  (∀ k, k ∈ keywords ↔ k ∈ keywords') →
  find_column df keywords = find_column df keywords'.
Proof.
  intros H. unfold find_column.
  induction (columns df) as [|c cols IH]; [done |].
  cbn [find_label]. by rewrite (any_in_same_keywords _ _ c H), IH.
Qed.

Lemma find_label_nonempty (cols keywords : list string) (c : string) :
  EmptyString ∉ keywords →
  find_label cols keywords = Some c →
  c ∈ cols ∧ c ≠ EmptyString ∧ Py.truthy (Some c) = true.
Proof.
  intros Hk [Hin Hany]%find_label_elem.
  assert (c ≠ EmptyString) as Hc.
  { intros ->. apply any_in_spec in Hany as [k [Hin' Hc]].
    destruct k; [done | discriminate Hc]. }
  split; [done |]. split; [done |].
  cbn [Py.truthy]. by apply negb_true_iff, String.eqb_neq.
Qed.

(** X6. With keywords that are not empty, a column that is found is one
    of the columns and its name is not empty: the truth tests on the
    result ([if not order_id_col], [if c_sku and c_cost], [if p_id and
    p_amt]) fail only when no column was found. *)
Theorem find_column_found_is_true (df : DataFrame) (keywords : list string)
  (c : string) :
  EmptyString ∉ keywords →
  find_column df keywords = Some c →
  c ∈ columns df ∧ c ≠ EmptyString ∧ Py.truthy (Some c) = true.
Proof. apply find_label_nonempty. Qed.

(** ** Orders, costs and statuses *)

Section OrderFacts.

Variable parse_num : string -> option Qc.
Variable str_num : Qc -> string.


(** X8. Without a usable cost sheet (none uploaded, one that cannot be
    read, or one without a SKU column or without a cost column) the cost
    map is empty and every order gets the fallback product cost. *)
Theorem no_cost_sheet_all_fallback
  (uploaded_cost_sheet : option (option DataFrame)) (sku_col : option string)
  (fallback : Qc) (row : gmap string Cell) :
  uploaded_cost_sheet = None ∨ uploaded_cost_sheet = Some None
  ∨ (∃ cost_df,
       uploaded_cost_sheet = Some (Some cost_df)
       ∧ (find_column (normalize_columns cost_df)
            ["sku"; "style"; "design"; "productid"] = None
          ∨ find_column (normalize_columns cost_df)
              ["cost"; "price"; "rate"; "amount"; "purchase"] = None)) →
  cost_map parse_num str_num uploaded_cost_sheet = ∅
  ∧ get_unit_cost str_num sku_col
      (cost_map parse_num str_num uploaded_cost_sheet) fallback row
    = fallback.
Proof.
  intros H.
  assert (cost_map parse_num str_num uploaded_cost_sheet = ∅) as E.
  { destruct H as [-> | [-> | [cost_df [-> H]]]]; [done | done |].
    cbn [cost_map]. unfold cost_map_of.
    destruct H as [-> | ->]; [done |].
    by destruct (find_column _ ["sku"; "style"; "design"; "productid"]). }
  split; [done |]. rewrite E. unfold get_unit_cost.
  destruct sku_col as [col|]; [| done].
  destruct (Py.truthy (Some col)); [| done].
  by rewrite lookup_empty.
Qed.

(** X9. The final status is lower case whatever the capitalisation of
    the status it comes from, so the lower-case keywords of the cost rule
    and of the counts are matched without regard to case. *)
Theorem final_status_is_lower_case (status_col : option string)
  (row : gmap string Cell) (keywords : list string) (t : string) :
  Py.lower (get_final_status str_num status_col row)
  = get_final_status str_num status_col row
  ∧ (row !! "payment_status" = Some (CStr t) →
     Py.any_in keywords (get_final_status str_num status_col row)
     = Py.any_in keywords (Py.lower t)).
Proof.
  split.
  - unfold get_final_status.
    destruct (notna _); [apply lower_idem |].
    destruct status_col as [col|]; [| done].
    destruct (_ && _); [apply lower_idem | done].
  - intros H. unfold get_final_status. by rewrite H.
Qed.

Lemma order_id_keywords_nonempty : EmptyString ∉ ["suborder"; "orderid"].
Proof.
  intros H. apply elem_of_cons in H as [H | H]; [discriminate |].
  apply elem_of_cons in H as [H | H]; [discriminate |].
  by apply elem_of_nil in H.
Qed.

Lemma row_of_lookup (df : DataFrame) (r : list Cell) (l : string) :
  l ∈ columns df → is_Some (row_of df r !! l).
Proof.
  intros Hl. unfold row_of. apply not_eq_None_Some.
  intros Hn. apply not_elem_of_list_to_map in Hn. apply Hn.
  rewrite fmap_imap.
  assert (∀ (n : nat) (cols : list string),
            l ∈ cols →
            l ∈ imap (fun i c => fst (c, cell_at (n + i) r)) cols) as Hgen.
  { clear. intros n cols. revert n.
    induction cols as [|c cols IH]; intros n Hc; [by apply elem_of_nil in Hc |].
    cbn [imap]. apply elem_of_cons in Hc as [-> | Hc].
    - apply list_elem_of_here.
    - apply list_elem_of_further.
      rewrite (imap_ext _ (fun i c => fst (c, cell_at (S n + i) r))).
      + by apply IH.
      + intros i x _. cbn. do 2 f_equal. }
  apply (Hgen 0 (columns df) Hl).
Qed.

(** X10. The run stops exactly when no normalised label of the order
    table contains [suborder] or [orderid]. Otherwise the order table
    keeps all its rows, the order id column is the first such label, and
    every order id is a text. *)
Theorem process_orders_outcome (orders_df : DataFrame) :
  (process_orders str_num orders_df = None ↔
   ∀ c, c ∈ columns (normalize_columns orders_df) →
        Py.contains "suborder" c = false ∧ Py.contains "orderid" c = false)
  ∧ ∀ orders,
      process_orders str_num orders_df = Some orders →
      find_column (normalize_columns orders_df) ["suborder"; "orderid"]
      = Some (order_id_col orders)
      ∧ length (order_rows orders) = len orders_df
      ∧ Forall (fun orow => ∃ s, orow !! order_id_col orders = Some (CStr s))
          (order_rows orders).
Proof.
  unfold process_orders. split.
  - destruct (find_column _ ["suborder"; "orderid"]) as [c|] eqn:E.
    + destruct (find_label_nonempty _ _ c order_id_keywords_nonempty E)
        as [Hin [_ ->]].
      split; [done |]. intros H. exfalso.
      apply find_label_elem in E as [_ Hany].
      apply any_in_spec in Hany as [k [Hk Hc]].
      destruct (H c Hin) as [H1 H2].
      apply elem_of_cons in Hk as [-> | Hk]; [congruence |].
      apply elem_of_cons in Hk as [-> | Hk]; [congruence |].
      by apply elem_of_nil in Hk.
    + split; [| done]. intros _ c Hc.
      apply find_label_none in E. rewrite Forall_forall in E.
      specialize (E c Hc). pose proof (proj1 (any_in_false _ _) E) as E'.
      split; apply E'; [apply list_elem_of_here |].
      apply list_elem_of_further, list_elem_of_here.
  - intros orders.
    destruct (find_column _ ["suborder"; "orderid"]) as [c|] eqn:E; [| done].
    destruct (find_label_nonempty _ _ c order_id_keywords_nonempty E)
      as [Hin [_ ->]].
    intros [= <-]. cbn [order_id_col order_rows].
    split; [done |]. split; [by rewrite length_map |].
    apply Forall_map, Forall_true. intros r.
    destruct (row_of_lookup (normalize_columns orders_df) r c Hin) as [x Hx].
    exists (cell_str str_num x). by rewrite lookup_alter_eq, Hx.
Qed.

End OrderFacts.

(** ** Merge *)

Section MergeFacts.

Variable parse_num : string -> option Qc.
Variable str_num : Qc -> string.

(** A resolved status column of the order table is neither of the two
    columns that the merge adds. *)
Lemma status_col_not_merged (orders_df : DataFrame) (col : string) :
  find_column (normalize_columns orders_df) ["orderstatus"; "status"]
  = Some col →
  col ≠ "amount" ∧ col ≠ "payment_status".
Proof.
  intros [Hin Hany]%find_label_elem. split.
  - intros ->. by vm_compute in Hany.
  - intros ->. cbn [normalize_columns columns] in Hin.
    apply list_elem_of_In, in_map_iff in Hin as [c [Hc _]].
    assert (Py.has_char underscore (normalize_name c) = false) as Hu.
    { unfold normalize_name.
      apply has_char_remove_other, has_char_remove_same. }
    rewrite Hc in Hu. by vm_compute in Hu.
Qed.

(** X11. An order whose id has no payment row, or only payment rows
    without a status, takes its final status from the order table: the
    lower-cased cell of the resolved status column when it is not empty,
    [unknown] otherwise; its amount is the summed amount of its payment
    rows, 0 when it has none. *)
Theorem order_side_status_fallback (orders_df : DataFrame)
  (summary : gmap string (Qc * Cell)) (id_col : string)
  (orow : gmap string Cell) :
  let status_col :=
    find_column (normalize_columns orders_df) ["orderstatus"; "status"] in
  let hit := orow !! id_col ≫= (fun c => summary !! cell_str str_num c) in
  let row := merge_row str_num summary id_col orow in
  snd <$> hit = None ∨ snd <$> hit = Some CNull →
  row_amount parse_num row = default 0%Qc (fst <$> hit)
  ∧ get_final_status str_num status_col row
    = match status_col with
      | Some col =>
          match orow !! col with
          | Some (CNum q) => Py.lower (str_num q)
          | Some (CStr t) => Py.lower t
          | _ => "unknown"
          end
      | None => "unknown"
      end.
Proof.
  intros status_col hit row Hhit.
  assert (row !! "amount" = Some (CNum (default 0%Qc (fst <$> hit)))) as Ha.
  { unfold row, merge_row. rewrite lookup_insert_ne by done.
    by rewrite lookup_insert_eq. }
  assert (row !! "payment_status" = Some CNull) as Hp.
  { unfold row, merge_row. rewrite lookup_insert_eq. fold hit.
    by destruct Hhit as [-> | ->]. }
  split.
  - unfold row_amount. by rewrite Ha.
  - unfold get_final_status. rewrite Hp. cbn [from_option notna].
    destruct status_col as [col|] eqn:E; [| done].
    destruct (status_col_not_merged orders_df col E) as [H1 H2].
    destruct (find_label_nonempty _ ["orderstatus"; "status"] col
                ltac:(intros H; repeat (apply elem_of_cons in H as [H | H];
                                        [discriminate H |]);
                      by apply elem_of_nil in H) E) as [_ [_ ->]].
    assert (row !! col = orow !! col) as ->.
    { unfold row, merge_row. by rewrite !lookup_insert_ne. }
    cbn [andb]. by destruct (orow !! col) as [[| q | t]|].
Qed.

Lemma process_sheets_nothing (sheets : list Sheet) (frames : list Frame) :
  Forall (fun sh => fst (process_sheet str_num sh) = Skipped
                    ∨ fst (process_sheet str_num sh) = Raised) sheets →
  process_sheets str_num sheets frames = Some frames.
Proof.
  induction 1 as [|sh sheets [H | H] _ IH]; cbn [process_sheets];
    [done | by rewrite H | by rewrite H].
Qed.

(** X12. When no uploaded file gives a frame (no file at all, files that
    cannot be opened, files whose sheets are all skipped or raise), the
    payment summary is empty, and every order then has the amount 0 and
    an empty payment status. *)
Theorem no_payment_data (uploaded_payments : list Workbook)
  (id_col : string) (orow : gmap string Cell) :
  Forall (fun pay_file =>
            match pay_file with
            | None => True
            | Some sheets =>
                Forall (fun sh => fst (process_sheet str_num sh) = Skipped
                                  ∨ fst (process_sheet str_num sh) = Raised)
                  sheets
            end) uploaded_payments →
  payment_aggregator parse_num str_num uploaded_payments = Some ∅
  ∧ row_amount parse_num (merge_row str_num ∅ id_col orow) = 0%Qc
  ∧ merge_row str_num ∅ id_col orow !! "payment_status" = Some CNull.
Proof.
  intros H. split; [| split].
  - unfold payment_aggregator, payment_frames.
    assert (process_files str_num uploaded_payments [] = Some []) as ->; [| done].
    generalize (@nil Frame).
    induction H as [|f files Hf _ IH]; intros frames; [done |].
    cbn [process_files]. destruct f as [sheets|]; cbn [process_file].
    + by rewrite process_sheets_nothing.
    + apply IH.
  - unfold row_amount, merge_row. rewrite lookup_insert_ne by done.
    rewrite lookup_insert_eq. by destruct (orow !! id_col).
  - unfold merge_row. rewrite lookup_insert_eq. by destruct (orow !! id_col).
Qed.

End MergeFacts.

(** ** The test of the header fix *)

Lemma repr_body_app (q : Ascii.ascii) (a b : string) :
  Py.repr_body q (a +:+ b) = Py.repr_body q a +:+ Py.repr_body q b.
Proof.
  induction a as [|c a IH]; [done |].
  rewrite append_cons. cbn [Py.repr_body]. by rewrite IH, append_assoc.
Qed.

Lemma repr_body_literal (x k : string) :
  literal_key k = true → Py.repr_body (Py.quote_of x) k = k.
Proof.
  unfold literal_key. induction k as [|c k IH]; [done |].
  cbn [all_chars]. intros [Hc Hk]%andb_true_iff.
  apply andb_true_iff in Hc as [H1 H2].
  apply String.eqb_eq in H1, H2. cbn [Py.repr_body].
  rewrite (IH Hk). by destruct (quote_of_cases x) as [-> | ->]; rewrite ?H1, ?H2.
Qed.

Lemma contains_append_r (k a b : string) :
  Py.contains k b = true → Py.contains k (a +:+ b) = true.
Proof.
  rewrite !contains_spec. intros [pre [post ->]].
  exists (a +:+ pre), post. by rewrite append_assoc.
Qed.

Lemma contains_append_l (k a b : string) :
  Py.contains k a = true → Py.contains k (a +:+ b) = true.
Proof.
  rewrite !contains_spec. intros [pre [post ->]].
  exists pre, (post +:+ b). by rewrite !append_assoc.
Qed.

Lemma contains_in_repr (k x : string) :
  literal_key k = true →
  Py.contains k x = true → Py.contains k (Py.repr x) = true.
Proof.
  intros Hk [pre [post ->]]%contains_spec. unfold Py.repr.
  apply contains_cons, contains_append_l.
  rewrite !repr_body_app, (repr_body_literal _ k Hk).
  apply contains_spec. by eexists _, _.
Qed.

Lemma contains_in_join_reprs (k x : string) (l : list string) :
  x ∈ l →
  Py.contains k (Py.repr x) = true → Py.contains k (Py.join_reprs l) = true.
Proof.
  intros Hx Hc. induction l as [|y l IH]; [by apply elem_of_nil in Hx |].
  destruct l as [|z l].
  - apply elem_of_cons in Hx as [-> | Hx]; [done | by apply elem_of_nil in Hx].
  - change (Py.join_reprs (y :: z :: l))
      with (Py.repr y +:+ ", " +:+ Py.join_reprs (z :: l)).
    apply elem_of_cons in Hx as [-> | Hx].
    + by apply contains_append_l.
    + do 2 apply contains_append_r. by apply IH.
Qed.

(** A key of plain letters is found in [str(list(l))] exactly when it is
    found in an element of [l]. *)
Lemma contains_str_list_iff (k : string) (l : list string) :
  plain_key k = true → literal_key k = true →
  Py.contains k (Py.str_list l) = true ↔
  ∃ x, x ∈ l ∧ Py.contains k x = true.
Proof.
  intros Hp Hl. split; [by apply contains_str_list |].
  intros [x [Hx Hc]]. unfold Py.str_list.
  apply contains_append_r, contains_append_l.
  apply (contains_in_join_reprs k x); [done |]. by apply contains_in_repr.
Qed.

Section HeaderFixFacts.

Variable str_num : Qc -> string.

(** X13. The test on the text of the whole list of labels is a test label
    by label: the sheet is read a second time exactly when it was read,
    has more than 2 data rows, and no label, in lower case and without
    spaces, contains [suborder]; otherwise it is read once. *)
Theorem header_test_exact (sh : Sheet) (df : DataFrame) :
  (needs_header_fix df = true ↔
   2 < len df
   ∧ ∀ c, c ∈ columns df →
          Py.contains "suborder" (Py.remove_char space (Py.lower c)) = false)
  ∧ (snd (process_sheet str_num sh) = [ReadHeader0; ReadHeader1] ↔
     ∃ df', read_header0 sh = Some df' ∧ needs_header_fix df' = true)
  ∧ (snd (process_sheet str_num sh) = [ReadHeader0; ReadHeader1]
     ∨ snd (process_sheet str_num sh) = [ReadHeader0]).
Proof.
  split; [| split].
  - unfold needs_header_fix.
    rewrite andb_true_iff, negb_true_iff, Nat.ltb_lt.
    rewrite <-not_true_iff_false, contains_str_list_iff by reflexivity.
    split.
    + intros [H1 H2]. split; [done |].
      intros c Hc. apply not_true_iff_false. intros Hs. apply H1.
      exists (Py.remove_char space (Py.lower c)). split; [| done].
      unfold temp_cols. apply list_elem_of_In.
      apply (in_map (fun a => Py.remove_char space (Py.lower a)) _ c).
      by apply list_elem_of_In.
    + intros [H1 H2]. split; [| done].
      intros [x [Hx Hs]]. unfold temp_cols in Hx.
      apply list_elem_of_In, in_map_iff in Hx as [c [<- Hc]].
      apply list_elem_of_In in Hc. by rewrite (H2 c Hc) in Hs.
  - unfold process_sheet. destruct (read_header0 sh) as [d|].
    + destruct (Nat.ltb_spec (len d) 2) as [Hlt | Hge].
      * split; [done |]. intros [df' [[= <-] Hn]].
        unfold needs_header_fix in Hn.
        apply andb_true_iff in Hn as [_ Hn%Nat.ltb_lt]. lia.
      * unfold header_fix. destruct (needs_header_fix d) eqn:E.
        -- split; [by exists d |]. by destruct (read_header1 sh).
        -- split; [done |]. intros [df' [[= <-] Hn]]. congruence.
    + split; [done |]. by intros [df' [? _]].
  - unfold process_sheet. destruct (read_header0 sh) as [d|]; [| by right].
    destruct (len d <? 2)%nat; [by right |].
    unfold header_fix. destruct (needs_header_fix d); [left | by right].
    by destruct (read_header1 sh).
Qed.

End HeaderFixFacts.

(** ** What a kept frame holds *)

Lemma renamed_label_present (ρ : string → string) (cols : list string)
  (x l : string) :
  x ∈ cols → ρ x = l → 1 ≤ length (filter (fun c => c = l) (map ρ cols)).
Proof.
  intros Hx Hρ. induction cols as [|c cols IH]; [by apply elem_of_nil in Hx |].
  rewrite map_cons, filter_cons.
  apply elem_of_cons in Hx as [<- | Hx].
  - rewrite decide_True by done. simpl. lia.
  - destruct (decide (ρ c = l)); simpl; [lia | by apply IH].
Qed.

Lemma renamed_label_source (ρ : string → string) (cols : list string)
  (l : string) :
  1 ≤ length (filter (fun c => c = l) (map ρ cols)) →
  ∃ x, x ∈ cols ∧ ρ x = l.
Proof.
  induction cols as [|c cols IH]; [simpl; lia |].
  rewrite map_cons, filter_cons.
  destruct (decide (ρ c = l)) as [E | E].
  - intros _. exists c. split; [apply list_elem_of_here | done].
  - intros [x [Hx Hρ]]%IH. exists x. split; [by apply list_elem_of_further | done].
Qed.

(** A label carried by one column after a renaming is at the position of
    the column it comes from. *)
Lemma index_of_renamed (ρ : string → string) (cols : list string)
  (x l : string) :
  x ∈ cols → ρ x = l →
  length (filter (fun c => c = l) (map ρ cols)) = 1 →
  index_of l (map ρ cols) = index_of x cols.
Proof.
  intros Hx Hρ. induction cols as [|c cols IH]; [by apply elem_of_nil in Hx |].
  rewrite map_cons, filter_cons. cbn [index_of].
  destruct (String.eqb_spec c x) as [-> | Hne].
  - intros _. by rewrite Hρ, String.eqb_refl.
  - apply elem_of_cons in Hx as [-> | Hx]; [done |].
    destruct (decide (ρ c = l)) as [E | E].
    + cbn [length]. intros [= Hz].
      pose proof (renamed_label_present ρ cols x l Hx Hρ). lia.
    + intros H1. apply String.eqb_neq in E. by rewrite E, (IH Hx H1).
Qed.

Lemma normalized_label_no_underscore (df0 : DataFrame) (c : string) :
  c ∈ columns (normalize_columns df0) → Py.has_char underscore c = false.
Proof.
  cbn [normalize_columns columns].
  intros [x [<- _]]%list_elem_of_In%in_map_iff. unfold normalize_name.
  apply has_char_remove_other, has_char_remove_same.
Qed.

Section KeptFrameFacts.

Variable str_num : Qc -> string.

(** X14. A frame that is kept holds the resolved columns: with distinct
    order id and amount columns, each row of the sheet whose order id is
    not empty gives one row, in the order of the sheet, with the text of
    that order id, the cell of the amount column and, when a status
    column was resolved, the cell of that column; rows with an empty
    order id are dropped. *)
Theorem kept_frame_rows (df0 : DataFrame) (f : Frame) :
  let df := normalize_columns df0 in
  collect str_num df = Kept f →
  ∃ i a,
    find_column df ["suborder"] = Some i
    ∧ find_column df ["finalsettlement"; "settlementamount"; "netamount"]
      = Some a
    ∧ has_status f
      = bool_decide (is_Some (find_column df ["liveorderstatus"; "orderstatus"]))
    ∧ (i ≠ a →
       frame_rows f
       = map (fun r =>
                {| suborderno := cell_str str_num (cell_of df i r);
                   amount := cell_of df a r;
                   payment_status :=
                     match find_column df ["liveorderstatus"; "orderstatus"]
                     with
                     | Some s => cell_of df s r
                     | None => CNull
                     end |})
           (filter (fun r => notna (cell_of df i r) = true) (rows df))).
Proof.
  intros df. unfold collect.
  destruct (find_column df ["suborder"]) as [i|] eqn:Ei; [| done].
  destruct (find_column df ["finalsettlement"; "settlementamount"; "netamount"])
    as [a|] eqn:Ea; [| done].
  assert (∀ kws, EmptyString ∉ kws → ∀ c, find_column df kws = Some c →
                 c ∈ columns df ∧ Py.truthy (Some c) = true) as Hfound.
  { intros kws Hk c Hc.
    destruct (find_label_nonempty _ _ c Hk Hc) as [? [_ ?]]. done. }
  assert (∀ (l : list string), Forall (fun k => k ≠ EmptyString) l →
                               EmptyString ∉ l) as Hne.
  { intros l Hl Hin. rewrite Forall_forall in Hl. by apply (Hl _ Hin). }
  destruct (Hfound ["suborder"]
              ltac:(apply Hne; repeat constructor; discriminate) i Ei)
    as [Hi ->].
  destruct (Hfound ["finalsettlement"; "settlementamount"; "netamount"]
              ltac:(apply Hne; repeat constructor; discriminate) a Ea)
    as [Ha ->].
  cbn [andb].
  set (ρ1 := fun c : string =>
               default c ((<[a := "amount"]> {[ i := "suborderno" ]}
                           : gmap string string) !! c)).
  assert (ρ1 a = "amount") as Hρa.
  { unfold ρ1. by rewrite lookup_insert_eq. }
  assert (i ≠ a → ρ1 i = "suborderno") as Hρi.
  { intros Hia. unfold ρ1. rewrite lookup_insert_ne by done.
    by rewrite lookup_singleton_eq. }
  assert (∀ c, ρ1 c = "amount" ∨ ρ1 c = "suborderno" ∨ ρ1 c = c) as Hρ1.
  { intros c. unfold ρ1. destruct (decide (a = c)) as [-> | Hac].
    - left. by rewrite lookup_insert_eq.
    - rewrite lookup_insert_ne by done. destruct (decide (i = c)) as [-> | Hic].
      + right; left. by rewrite lookup_singleton_eq.
      + right; right. by rewrite lookup_singleton_ne. }
  change (columns (rename (<[a := "amount"]> {[ i := "suborderno" ]}) df))
    with (map ρ1 (columns df)).
  destruct (Nat.eqb_spec (count_label "suborderno"
                            (rename (<[a := "amount"]> {[ i := "suborderno" ]}) df)) 0)
    as [? | _]; [done |].
  destruct (find_column df ["liveorderstatus"; "orderstatus"]) as [s|] eqn:Es.
  - destruct (Hfound ["liveorderstatus"; "orderstatus"]
                ltac:(apply Hne; repeat constructor; discriminate) s Es)
      as [Hs ->].
    set (ρ2 := fun c : string =>
                 default c (({[ s := "payment_status" ]} : gmap string string)
                              !! c)).
    set (df2 := rename {[ s := "payment_status" ]}
                  (rename (<[a := "amount"]> {[ i := "suborderno" ]}) df)).
    assert (columns df2 = map (fun c => ρ2 (ρ1 c)) (columns df)) as Hcols.
    { unfold df2, rename. cbn [columns]. by rewrite map_map. }
    assert (rows df2 = rows df) as Hrows by done.
    destruct (existsb (fun l => (count_label l df2 =? 0)%nat) _) eqn:E0; [done |].
    destruct (existsb (fun l => (1 <? count_label l df2)%nat) _) eqn:E1; [done |].
    intros [= <-]. exists i, a. split; [done |]. split; [done |].
    split; [done |]. intros Hia.
    cbn [existsb] in E0, E1. rewrite !orb_false_iff in E0, E1.
    destruct E0 as [Z1 [Z2 [Z3 _]]]. destruct E1 as [O1 [O2 [O3 _]]].
    apply Nat.eqb_neq in Z1, Z2, Z3. apply Nat.ltb_ge in O1, O2, O3.
    unfold count_label in Z1, Z2, Z3, O1, O2, O3. rewrite Hcols in *.
    assert (s ≠ "amount" ∧ s ≠ "suborderno") as [Hsa Hss].
    { apply find_label_elem in Es as [_ Hany].
      split; intros ->; by vm_compute in Hany. }
    assert (∀ x, x ≠ s → ρ2 x = x) as Hρ2.
    { intros x Hx. unfold ρ2. by rewrite lookup_singleton_ne. }
    assert (ρ2 s = "payment_status") as Hρ2s.
    { unfold ρ2. by rewrite lookup_singleton_eq. }
    assert (ρ1 s = s) as Hρ1s.
    { destruct (renamed_label_source (fun c => ρ2 (ρ1 c)) (columns df)
                  "payment_status" ltac:(lia)) as [x [Hx Hρx]].
      assert (ρ1 x = s) as Hx1.
      { destruct (decide (ρ1 x = s)) as [? | Hn]; [done |]. exfalso.
        rewrite (Hρ2 _ Hn) in Hρx.
        destruct (Hρ1 x) as [E | [E | E]]; rewrite E in Hρx; try discriminate.
        subst x. apply normalized_label_no_underscore in Hx.
        by vm_compute in Hx. }
      destruct (Hρ1 x) as [E | [E | E]]; congruence. }
    cbn [frame_rows]. unfold pay_rows, cell_of. rewrite Hrows, Hcols.
    rewrite (index_of_renamed _ _ i "suborderno" Hi);
      [| by rewrite (Hρi Hia), Hρ2 | lia].
    rewrite (index_of_renamed _ _ a "amount" Ha); [| by rewrite Hρa, Hρ2 | lia].
    rewrite (index_of_renamed _ _ s "payment_status" Hs);
      [| by rewrite Hρ1s | lia].
    done.
  - cbn [Py.truthy].
    set (df1 := rename (<[a := "amount"]> {[ i := "suborderno" ]}) df).
    assert (columns df1 = map ρ1 (columns df)) as Hcols by done.
    assert (rows df1 = rows df) as Hrows by done.
    destruct (existsb (fun l => (count_label l df1 =? 0)%nat) _) eqn:E0; [done |].
    destruct (existsb (fun l => (1 <? count_label l df1)%nat) _) eqn:E1; [done |].
    intros [= <-]. exists i, a. split; [done |]. split; [done |].
    split; [done |]. intros Hia.
    cbn [existsb] in E0, E1. rewrite !orb_false_iff in E0, E1.
    destruct E0 as [Z1 [Z2 _]]. destruct E1 as [O1 [O2 _]].
    apply Nat.eqb_neq in Z1, Z2. apply Nat.ltb_ge in O1, O2.
    unfold count_label in Z1, Z2, O1, O2. rewrite Hcols in *.
    cbn [frame_rows]. unfold pay_rows, cell_of. rewrite Hrows, Hcols.
    rewrite (index_of_renamed _ _ i "suborderno" Hi); [| by apply Hρi | lia].
    rewrite (index_of_renamed _ _ a "amount" Ha); [| done | lia].
    done.
Qed.

End KeptFrameFacts.

(** ** Conservation of the amounts *)

Lemma summary_total_insert (m : gmap string Qc) (k : string) (v : Qc) :
  summary_total (<[k := v]> m)
  = (v - default 0 (m !! k) + summary_total m)%Qc.
Proof.
  unfold summary_total.
  assert (∀ (j1 j2 : string) (z1 z2 y : Qc),
            (z1 + (z2 + y) = z2 + (z1 + y))%Qc) as Hcomm.
  { intros _ _ z1 z2 y. by rewrite !Qcplus_assoc, (Qcplus_comm z1 z2). }
  rewrite <-insert_delete_eq.
  rewrite map_fold_insert_L; [| by intros; apply Hcomm | apply lookup_delete_eq].
  destruct (m !! k) as [old|] eqn:E.
  - rewrite (map_fold_delete_L _ _ k old m); [| by intros; apply Hcomm | done].
    cbn [from_option id]. ring.
  - rewrite (delete_id m k E). cbn [from_option]. ring.
Qed.

(** X15. Grouping loses nothing and counts nothing twice: the amounts of
    the summary, added over its order ids, are the amounts of all
    collected payment rows added together. *)
Theorem amounts_conserved (payments : list Payment) :
  summary_total (amount_summary payments)
  = sum_amounts (map pay_amount payments).
Proof.
  induction payments as [|p payments IH] using rev_ind; [done |].
  rewrite amount_summary_snoc, summary_total_insert, IH.
  rewrite map_app. change (map pay_amount [p]) with [pay_amount p].
  rewrite sum_amounts_snoc. ring.
Qed.

(** ** The settlement total of a run *)

Section PayoutFacts.

Variable parse_num : string -> option Qc.
Variable str_num : Qc -> string.

(** The amount of a merged order row is the sum of the payments of its
    order id. *)
Lemma merged_amount (frames : list Frame) (id_col : string)
  (orow : gmap string Cell) (oid : string) :
  orow !! id_col = Some (CStr oid) →
  row_amount parse_num
    (merge_row str_num (payment_summary parse_num frames) id_col orow)
  = sum_amounts
      (map pay_amount (payments_of oid (all_payments parse_num frames))).
Proof.
  intros Hid. unfold row_amount, merge_row.
  rewrite lookup_insert_ne by done. rewrite lookup_insert_eq, Hid.
  cbn [mbind option_bind cell_str from_option coerce0 to_numeric].
  rewrite payment_summary_lookup, amount_summary_lookup.
  by destruct (payments_of oid _).
Qed.

Lemma sum_amounts_app (l k : list Qc) :
  sum_amounts (l ++ k) = (sum_amounts l + sum_amounts k)%Qc.
Proof.
  induction l as [|x l IH]; cbn [app].
  - unfold sum_amounts at 2. cbn [foldr]. ring.
  - change (sum_amounts (x :: l ++ k)) with (x + sum_amounts (l ++ k))%Qc.
    change (sum_amounts (x :: l)) with (x + sum_amounts l)%Qc.
    rewrite IH. ring.
Qed.

(** Over distinct order ids, the payments of the ids add up to the
    payments whose id is one of them. *)
Lemma sum_over_known_ids (ids : list string) (payments : list Payment) :
  NoDup ids →
  sum_amounts
    (map (fun oid => sum_amounts (map pay_amount (payments_of oid payments)))
       ids)
  = sum_amounts
      (map pay_amount (filter (fun p => pay_id p ∈ ids) payments)).
Proof.
  induction 1 as [|oid ids Hnot Hnd IH].
  - cbn [map].
    assert (filter (fun p => pay_id p ∈ @nil string) payments = []) as ->;
      [| done].
    induction payments as [|p payments IHp]; [done |].
    rewrite filter_cons. rewrite decide_False; [done | apply not_elem_of_nil].
  - rewrite map_cons.
    change (sum_amounts (?a :: ?l)) with (a + sum_amounts l)%Qc.
    rewrite IH. clear IH. unfold payments_of.
    induction payments as [|p payments IHp].
    + unfold sum_amounts. cbn. ring.
    + rewrite !filter_cons.
      destruct (decide (pay_id p = oid)) as [E | E].
      * rewrite decide_False by (rewrite E; done).
        rewrite decide_True by (rewrite E; apply list_elem_of_here).
        rewrite !map_cons.
        change (sum_amounts (?a :: ?l)) with (a + sum_amounts l)%Qc.
        rewrite <-IHp. ring.
      * destruct (decide (pay_id p ∈ ids)) as [Hin | Hin].
        -- rewrite decide_True by by apply list_elem_of_further.
           rewrite !map_cons.
           change (sum_amounts (?a :: ?l)) with (a + sum_amounts l)%Qc.
           rewrite <-IHp. ring.
        -- rewrite decide_False; [exact IHp |].
           intros [? | ?]%elem_of_cons; congruence.
Qed.

(** X16. With distinct order ids in the order table, the total settlement
    of a run is the sum of the collected payments whose order id is in
    the order table: payments of other order ids are left out of it. *)
Theorem payout_counts_known_orders (cfg : Config) (costs : gmap string Qc)
  (status_col sku_col : option string) (frames : list Frame)
  (id_col : string) (orows : list (gmap string Cell)) (ids : list string) :
  Forall2 (fun orow oid => orow !! id_col = Some (CStr oid)) orows ids →
  NoDup ids →
  let summary := payment_summary parse_num frames in
  let records :=
    map (fun orow =>
           reconcile_row parse_num str_num cfg costs status_col sku_col
             (merge_row str_num summary id_col orow))
      orows in
  payout_settled (metrics parse_num records)
  = sum_amounts
      (map pay_amount
         (filter (fun p => pay_id p ∈ ids) (all_payments parse_num frames))).
Proof.
  intros Hids Hnd summary records.
  rewrite <-(sum_over_known_ids ids _ Hnd).
  cbn [metrics payout_settled]. f_equal. unfold records.
  rewrite map_map. cbn [reconcile_row rec_row].
  clear Hnd records. induction Hids as [|orow oid orows ids H _ IH]; [done |].
  rewrite !map_cons. f_equal; [| exact IH].
  by apply merged_amount.
Qed.

End PayoutFacts.

(** ** Files one after the other *)

Section BatchFacts.

Variable parse_num : string -> option Qc.
Variable str_num : Qc -> string.

Lemma process_sheets_acc (sheets : list Sheet) (frames : list Frame) :
  process_sheets str_num sheets frames
  = (fun kept => frames ++ kept) <$> process_sheets str_num sheets [].
Proof.
  revert frames. induction sheets as [|sh sheets IH]; intros frames.
  - cbn. by rewrite app_nil_r.
  - cbn [process_sheets]. destruct (fst (process_sheet str_num sh)) as [| | f |].
    + apply IH.
    + cbn. by rewrite app_nil_r.
    + rewrite (IH (frames ++ [f])), (IH ([] ++ [f])).
      destruct (process_sheets str_num sheets []) as [kept|]; [| done].
      cbn. by rewrite <-!app_assoc.
    + done.
Qed.

Lemma process_files_acc (files : list Workbook) (frames : list Frame) :
  process_files str_num files frames
  = (fun kept => frames ++ kept) <$> process_files str_num files [].
Proof.
  revert frames. induction files as [|f files IH]; intros frames.
  - cbn. by rewrite app_nil_r.
  - cbn [process_files]. destruct f as [sheets|]; cbn [process_file].
    + rewrite (process_sheets_acc sheets frames).
      destruct (process_sheets str_num sheets []) as [kept|]; [| done].
      cbn [fmap option_fmap option_map app].
      rewrite (IH (frames ++ kept)), (IH kept).
      destruct (process_files str_num files []) as [more|]; [| done].
      cbn. by rewrite <-app_assoc.
    + apply IH.
Qed.

(** X17. Files are processed independently of the files before them: the
    frames of a list of files are the frames of its first part followed
    by the frames of the rest; for every order id the amounts of the two
    parts add up, and the payment status is the last one of the second
    part when it has one, else that of the first part. *)
Theorem payment_files_in_batches (first second : list Workbook)
  (fa fb : list Frame) (oid : string) :
  payment_frames str_num first = Some fa →
  payment_frames str_num second = Some fb →
  let mine := fun frames => payments_of oid (all_payments parse_num frames) in
  payment_frames str_num (first ++ second) = Some (fa ++ fb)
  ∧ sum_amounts (map pay_amount (mine (fa ++ fb)))
    = (sum_amounts (map pay_amount (mine fa))
       + sum_amounts (map pay_amount (mine fb)))%Qc
  ∧ last_status (mine (fa ++ fb))
    = match last_status (mine fb) with
      | Some c => Some c
      | None => last_status (mine fa)
      end.
Proof.
  intros Ha Hb mine. unfold payment_frames in *.
  split; [| split].
  - rewrite process_files_app, Ha. cbn [mbind option_bind].
    by rewrite process_files_acc, Hb.
  - unfold mine, payments_of.
    rewrite all_payments_app, filter_app, map_app. apply sum_amounts_app.
  - unfold mine, payments_of, last_status.
    by rewrite all_payments_app, filter_app, map_app, filter_app, last_app.
Qed.

(** X18. An order without payment rows whose final status contains none
    of the cost keywords (a cancelled order, or one whose status is
    [unknown]) has product cost 0 and a net profit of minus the packaging
    cost. *)
Theorem unpaid_ineligible_order (cfg : Config) (costs : gmap string Qc)
  (status_col sku_col : option string) (summary : gmap string (Qc * Cell))
  (id_col : string) (orow : gmap string Cell) :
  let r := reconcile_row parse_num str_num cfg costs status_col sku_col
             (merge_row str_num summary id_col orow) in
  (orow !! id_col ≫= (fun c => summary !! cell_str str_num c)) = None →
  Py.any_in valid_cost_statuses (final_status r) = false →
  product_cost r = 0%Qc
  ∧ net_profit r = (- packaging_cost cfg)%Qc
  ∧ Py.any_in valid_cost_statuses "unknown" = false
  ∧ Py.any_in valid_cost_statuses "cancelled" = false.
Proof.
  intros r Hhit Hs.
  assert (product_cost r = 0%Qc) as Hc.
  { subst r. cbn [reconcile_row product_cost final_status] in *.
    unfold calculate_total_cost. by rewrite Hs. }
  split; [done |]. split; [| by split].
  assert (net_profit r
          = (row_amount parse_num
               (merge_row str_num summary id_col orow)
             - product_cost r - packaging_cost cfg)%Qc) as -> by done.
  rewrite Hc. unfold row_amount, merge_row.
  rewrite lookup_insert_ne by done. rewrite lookup_insert_eq, Hhit.
  cbn [fmap option_fmap option_map from_option coerce0 to_numeric id]. ring.
Qed.

End BatchFacts.

(** ** Closed instances of the further properties *)

(** Swapping the two keywords of the order id still resolves the first
    matching column, [orderid]. *)
Lemma find_column_keyword_order_witness :
  find_column (normalize_columns two_id_orders) ["suborder"; "orderid"]
  = find_column (normalize_columns two_id_orders) ["orderid"; "suborder"]
  ∧ find_column (normalize_columns two_id_orders) ["suborder"; "orderid"]
    = Some "orderid".
Proof.
  split; [| reflexivity].
  apply (find_column_keyword_order (normalize_columns two_id_orders)
           ["suborder"; "orderid"] ["orderid"; "suborder"]).
  intros k. rewrite !elem_of_cons. tauto.
Defined.

Lemma find_column_found_is_true_witness :
  "orderid" ∈ columns (normalize_columns two_id_orders)
  ∧ "orderid" ≠ EmptyString
  ∧ Py.truthy (Some "orderid") = true.
Proof.
  apply (find_column_found_is_true (normalize_columns two_id_orders)
           ["suborder"; "orderid"] "orderid").
  - intros H. apply elem_of_cons in H as [H | H]; [discriminate |].
    apply elem_of_cons in H as [H | H]; [discriminate |].
    by apply elem_of_nil in H.
  - reflexivity.
Defined.


Lemma no_cost_sheet_all_fallback_witness :
  cost_map no_text_number number_text None = ∅
  ∧ get_unit_cost number_text (Some "sku")
      (cost_map no_text_number number_text None) (rat 20 1) shouting_sku_row
    = rat 20 1.
Proof.
  apply (no_cost_sheet_all_fallback no_text_number number_text None
           (Some "sku") (rat 20 1) shouting_sku_row).
  by left.
Defined.

(** Without payments the order A2 of the scenario is [cancelled] with the
    amount 0. *)
Lemma order_side_status_fallback_witness :
  row_amount no_text_number (merge_row number_text ∅ "suborderno" cancelled_orow)
  = 0%Qc
  ∧ get_final_status number_text
      (find_column (normalize_columns scenario_orders) ["orderstatus"; "status"])
      (merge_row number_text ∅ "suborderno" cancelled_orow)
    = "cancelled".
Proof.
  destruct (order_side_status_fallback no_text_number number_text
              scenario_orders ∅ "suborderno" cancelled_orow) as [H1 H2].
  { by left. }
  split.
  - rewrite H1. reflexivity.
  - rewrite H2. reflexivity.
Defined.

Lemma no_payment_data_witness :
  payment_aggregator no_text_number number_text
    [None; Some [summary_sheet; unreadable_sheet]; Some [summary_sheet]]
  = Some ∅.
Proof.
  apply (no_payment_data no_text_number number_text
           [None; Some [summary_sheet; unreadable_sheet]; Some [summary_sheet]]
           "suborderno" cancelled_orow).
  repeat first [ apply Forall_nil_2 | apply Forall_cons_2 | exact I
               | by left | by right ].
Defined.

(** The frame kept from [x1_table] has its two rows. *)
Lemma kept_frame_rows_witness :
  ∃ f, collect number_text (normalize_columns x1_table) = Kept f
       ∧ frame_rows f
         = [ {| suborderno := "X1"; amount := CNum (rat 12050 100);
                payment_status := CNull |};
             {| suborderno := "X1"; amount := CNum (rat (-15) 1);
                payment_status := CNull |} ].
Proof.
  eexists. split; [reflexivity |].
  match goal with
  | |- frame_rows ?f = _ =>
      destruct (kept_frame_rows number_text x1_table f eq_refl)
        as [i [a [Hi [Ha [_ Hrows]]]]]
  end.
  injection Hi as <-. injection Ha as <-.
  rewrite Hrows by discriminate. reflexivity.
Defined.

(** With the order ids X1 and X9 in the order table, the settlement total
    of the two files is 105.50: the payments of X2 and X3 are left out. *)
Lemma payout_counts_known_orders_witness :
  payout_settled
    (metrics no_text_number
       (map (fun orow =>
               reconcile_row no_text_number number_text scenario_config ∅
                 None None
                 (merge_row number_text
                    (payment_summary no_text_number [x1_frame])
                    "suborderno" orow))
          [<["suborderno" := CStr "X1"]> ∅; <["suborderno" := CStr "X9"]> ∅]))
  = rat 10550 100.
Proof.
  rewrite (payout_counts_known_orders no_text_number number_text
             scenario_config ∅ None None [x1_frame] "suborderno"
             [<["suborderno" := CStr "X1"]> ∅; <["suborderno" := CStr "X9"]> ∅]
             ["X1"; "X9"]).
  - apply Qc_is_canon. by vm_compute.
  - repeat constructor; apply lookup_insert_eq.
  - repeat constructor; [| apply not_elem_of_nil].
    intros H. apply elem_of_cons in H as [H | H]; [discriminate |].
    by apply elem_of_nil in H.
Defined.

Lemma payment_files_in_batches_witness :
  ∃ fa fb,
    payment_frames number_text [first_file] = Some fa
    ∧ payment_frames number_text [second_file] = Some fb
    ∧ payment_frames number_text ([first_file] ++ [second_file])
      = Some (fa ++ fb).
Proof.
  eexists _, _. split; [reflexivity |]. split; [reflexivity |].
  exact (proj1 (payment_files_in_batches no_text_number number_text
                  [first_file] [second_file] _ _ "X1" eq_refl eq_refl)).
Defined.

(** The cancelled order A2 without payments loses the packaging cost. *)
Lemma unpaid_ineligible_order_witness :
  net_profit
    (reconcile_row no_text_number number_text scenario_config ∅
       (Some "orderstatus") None
       (merge_row number_text ∅ "suborderno" cancelled_orow))
  = (- rat 5 1)%Qc.
Proof.
  exact (proj1 (proj2 (unpaid_ineligible_order no_text_number number_text
                         scenario_config ∅ (Some "orderstatus") None ∅
                         "suborderno" cancelled_orow eq_refl eq_refl))).
Defined.
